(** * Hybrid retrieval of edge-rag: a shallow embedding of [src/retriever.py]

    The development follows [retriever.py] function by function:
    [generate_embedding], [tokenize_text] and [search_documents].  Calls that
    leave the module (the embedding endpoint, the vector store, the NLTK
    tokenizer, the BM25 ranking model) are fields of a [Services] record;
    every such call is written to a trace, so that statements of the form
    "this stage is not invoked" are statements about the trace.

    Numbers.  Scores are Python floats that the code multiplies, adds and
    compares: they are binary64 numbers, Rocq's primitive floats, with the
    rounding of IEEE 754 ([0.1 * 0.5 + 0.9] is [0.9500000000000001]).
    Embedding components and the options of the chat model are only passed
    along; they are kept as rationals ([Q]). *)

From Stdlib Require Import Floats.
From Stdlib Require Import Ascii String QArith.
From stdpp Require Import base option list strings gmap sorting.

Local Open Scope string_scope.
Local Open Scope list_scope.

#[local] Set Warnings "-inexact-float".

(** ** Exceptions and results *)

(** The exceptions that matter here.  All of them are subclasses of Python's
    [Exception], which is what both [except Exception] handlers catch. *)
Inductive exn : Type :=
  | KeyError (key : string)
  | IndexError
  | ServiceError (msg : string).

Inductive result (A : Type) : Type :=
  | Ok (a : A)
  | Raise (e : exn).
Arguments Ok {A} a.
Arguments Raise {A} e.

(** ** Data *)

(** [hit.payload["metadata"]]: every key may be absent. *)
Record Metadata : Type := {
  meta_source : option string;
  meta_chunk_id : option Z;
  meta_total_chunks : option Z;
  meta_language : option string;
  meta_key_phrases : option (list string)
}.

(** [hit.payload]: the keys ["text"] and ["metadata"], either may be absent.
    The values have the types the vector store is filled with: a string for
    the text, a dict for the metadata. *)
Record Payload : Type := {
  payload_text : option string;
  payload_metadata : option Metadata
}.

(** One scored point returned by [client.search]. *)
Record Hit : Type := {
  hit_payload : Payload;
  hit_score : float
}.

(** The dict appended to [retrieved_docs].  The key ["bm25_score"] does not
    exist until the re-ranking loop assigns it: [None] is the absent key. *)
Record Candidate : Type := {
  doc_text : string;
  doc_score : float;
  doc_source : string;
  doc_chunk_id : Z;
  doc_total_chunks : Z;
  doc_language : string;
  doc_key_phrases : list string;
  doc_bm25_score : option float
}.

(** ** Trace of the calls that leave the module *)

Inductive Message : Type :=
  | MsgCollectionNotFound (collection_name : string)
  | MsgSearching (query collection_name : string)
  | MsgRetrieved (n : nat)
  | MsgVectorSearchError (e : exn)
  | MsgBM25Error (e : exn).

Inductive Event : Type :=
  | EvEmbeddings (model prompt : string)
  | EvCollectionExists (collection_name : string)
  | EvSearch (collection_name : string) (query_vector : list Q) (limit : nat)
  | EvWordTokenize (text : string)
  | EvBM25Okapi (tokenized_corpus : list (list string))
  | EvGetScores (query_tokens : list string)
  | EvSorted
  | EvPrint (m : Message).

(** ** The monad: state (outside world and trace) with exceptions

    A raised exception keeps the state reached so far, as in Python. *)

Record State (W : Type) : Type := mkState {
  world : W;
  trace : list Event
}.
Arguments mkState {W} world trace.
Arguments world {W} s.
Arguments trace {W} s.

Definition M (W A : Type) : Type := State W -> result A * State W.

Definition ret {W A} (a : A) : M W A := fun s => (Ok a, s).

Definition raise {W A} (e : exn) : M W A := fun s => (Raise e, s).

Definition bind {W A B} (m : M W A) (k : A -> M W B) : M W B :=
  fun s =>
    match m s with
    | (Ok a, s') => k a s'
    | (Raise e, s') => (Raise e, s')
    end.

(** [try: m  except Exception as e: h e] *)
Definition try_except {W A} (m : M W A) (h : exn -> M W A) : M W A :=
  fun s =>
    match m s with
    | (Ok a, s') => (Ok a, s')
    | (Raise e, s') => h e s'
    end.

(** A call to an outside service: the event is recorded, then the service
    answers and moves the world. *)
Definition call {W A} (ev : Event) (f : W -> result A * W) : M W A :=
  fun s =>
    let '(r, w') := f (world s) in
    (r, mkState w' (trace s ++ [ev])).

Definition emit {W} (ev : Event) : M W unit :=
  fun s => (Ok tt, mkState (world s) (trace s ++ [ev])).

Definition print {W} (m : Message) : M W unit := emit (EvPrint m).

#[global] Instance M_ret {W} : MRet (M W) := fun A a => ret a.
#[global] Instance M_bind {W} : MBind (M W) := fun A B k m => bind m k.

(** [[f(x) for x in l]] where [f] may raise: left to right, stopping at the
    first exception. *)
Fixpoint for_each {W A B} (f : A -> M W B) (l : list A) : M W (list B) :=
  match l with
  | [] => ret []
  | x :: l' => y ← f x; ys ← for_each f l'; ret (y :: ys)
  end.

(** ** The services the module calls *)

Record Services (W : Type) : Type := {
  (** [ollama.embeddings(model=, prompt=)["embedding"]] *)
  ollama_embeddings : string -> string -> W -> result (list Q) * W;
  (** [client.collection_exists(collection_name)] *)
  collection_exists : string -> W -> result bool * W;
  (** [client.search(collection_name=, query_vector=, limit=, ...)] *)
  client_search : string -> list Q -> nat -> W -> result (list Hit) * W;
  (** [nltk.tokenize.word_tokenize(text)] *)
  word_tokenize : string -> W -> result (list string) * W;
  (** [BM25Okapi(tokenized_corpus)]: building the model may raise. *)
  BM25Okapi : list (list string) -> W -> result unit * W;
  (** [bm25.get_scores(query_tokens)] on the model built from the corpus *)
  get_scores : list (list string) -> list string -> W -> result (list float) * W;
  (** [str.lower] *)
  str_lower : string -> string
}.
Arguments ollama_embeddings {W} s _ _ _.
Arguments collection_exists {W} s _ _.
Arguments client_search {W} s _ _ _ _.
Arguments word_tokenize {W} s _ _.
Arguments BM25Okapi {W} s _ _.
Arguments get_scores {W} s _ _ _.
Arguments str_lower {W} s _.

(** ** [generate_embedding] *)

Definition EMBEDDING_SIZES : gmap string nat :=
  <["arabic" := 1024%nat]> (<["english" := 1024%nat]> ∅).

(** [d[k]] on a dict: [KeyError] when the key is absent. *)
Definition dict_get {W A} (d : gmap string A) (k : string) : M W A :=
  match d !! k with
  | Some v => ret v
  | None => raise (KeyError k)
  end.

(** [np.pad(embedding, (0, n), 'constant')] *)
Definition np_pad_right (embedding : list Q) (n : nat) : list Q :=
  embedding ++ replicate n 0%Q.

Definition generate_embedding {W} (sv : Services W) (text language : string)
  : M W (list Q) :=
  let model_name := if String.eqb language "arabic" then "bge-m3" else "bge-m3" in
  embedding ← call (EvEmbeddings model_name text)
                   (ollama_embeddings sv model_name text);
  expected_size ← dict_get EMBEDDING_SIZES language;
  let embedding :=
    if (length embedding <? expected_size)%nat then
      np_pad_right embedding (expected_size - length embedding)
    else if (expected_size <? length embedding)%nat then
      take expected_size embedding
    else embedding in
  ret embedding.

(** ** [tokenize_text] *)

(** [string.punctuation]: the 32 ASCII punctuation characters, in code order. *)
Definition punctuation : string :=
  String.append "!" (String "034"%char "#$%&'()*+,-./:;<=>?@[\]^_`{|}~").

(** [needle in haystack] on two [str]: the substring test. *)
Fixpoint str_in (needle haystack : string) : bool :=
  String.prefix needle haystack
  || match haystack with
     | EmptyString => false
     | String _ rest => str_in needle rest
     end.

Definition tokenize_text {W} (sv : Services W) (text language : string)
  : M W (list string) :=
  if String.eqb language "arabic" then
    call (EvWordTokenize text) (word_tokenize sv text)
  else
    words ← call (EvWordTokenize text) (word_tokenize sv text);
    mret (map (str_lower sv)
              (List.filter (fun word => negb (str_in word punctuation)) words)).

(** ** [search_documents] *)

(** The dict built from one hit; [language] is the argument of
    [search_documents], used where the metadata has no ["language"]. *)
Definition candidate_of_hit (language : string) (hit : Hit) : Candidate :=
  let metadata := payload_metadata (hit_payload hit) in
  {| doc_text := default "" (payload_text (hit_payload hit));
     doc_score := hit_score hit;
     doc_source := default "Unknown" (metadata ≫= meta_source);
     doc_chunk_id := default 0%Z (metadata ≫= meta_chunk_id);
     doc_total_chunks := default 1%Z (metadata ≫= meta_total_chunks);
     doc_language := default language (metadata ≫= meta_language);
     doc_key_phrases := default [] (metadata ≫= meta_key_phrases);
     doc_bm25_score := None |}.

(** One turn of [for hit in vector_results], on the pair
    [(retrieved_docs, seen_texts)]. *)
Definition add_hit (language : string)
    (acc : list Candidate * gset string) (hit : Hit)
  : list Candidate * gset string :=
  let '(retrieved_docs, seen_texts) := acc in
  let text := default "" (payload_text (hit_payload hit)) in
  if decide (text ∉ seen_texts) then
    (retrieved_docs ++ [candidate_of_hit language hit], seen_texts ∪ {[text]})
  else acc.

Definition collect_hits (language : string) (vector_results : list Hit)
  : list Candidate :=
  fst (fold_left (add_hit language) vector_results ([], ∅)).

(** [doc["bm25_score"] = s] *)
Definition set_bm25_score (doc : Candidate) (s : float) : Candidate :=
  {| doc_text := doc_text doc;
     doc_score := doc_score doc;
     doc_source := doc_source doc;
     doc_chunk_id := doc_chunk_id doc;
     doc_total_chunks := doc_total_chunks doc;
     doc_language := doc_language doc;
     doc_key_phrases := doc_key_phrases doc;
     doc_bm25_score := Some s |}.

(** [for idx, doc in enumerate(retrieved_docs): doc["bm25_score"] = bm25_scores[idx]],
    started at index [idx].  The dicts are the ones [retrieved_docs] holds, so
    the assignments made before an [IndexError] stay: the function returns the
    list as it is when the loop stops, and the exception if there was one. *)
Fixpoint assign_bm25_scores (retrieved_docs : list Candidate)
    (bm25_scores : list float) (idx : nat) : list Candidate * option exn :=
  match retrieved_docs with
  | [] => ([], None)
  | doc :: rest =>
      match bm25_scores !! idx with
      | None => (doc :: rest, Some IndexError)
      | Some s =>
          let '(rest', err) := assign_bm25_scores rest bm25_scores (S idx) in
          (set_bm25_score doc s :: rest', err)
      end
  end.

(** [list.sort]: stable, ascending, comparing keys with [<] only.  The list
    holds the elements with their keys, computed once beforehand.  On keys
    that are numbers [<] is a strict weak order and every stable sort,
    CPython's included, returns this list.  A NaN compares false with
    everything; what comes out then depends on the sorting algorithm, and the
    statements on the order of the result are about keys that are numbers. *)
Fixpoint insert_by_key {A} (x : float * A) (l : list (float * A))
  : list (float * A) :=
  match l with
  | [] => [x]
  | y :: l' =>
      if (fst y <? fst x)%float then y :: insert_by_key x l' else x :: y :: l'
  end.

Definition list_sort {A} (l : list (float * A)) : list (float * A) :=
  foldr insert_by_key [] l.

(** [sorted(l, key=, reverse=)] once the keys are there.  With [reverse] the
    list is reversed, sorted and reversed again, which keeps elements of equal
    key in their original order. *)
Definition sorted {A} (keyed : list (float * A)) (reverse : bool) : list A :=
  map snd (if reverse then rev (list_sort (rev keyed)) else list_sort keyed).

(** [(x["bm25_score"] * weight_vector) + x["score"]] *)
Definition fused_key (weight_vector : float) (x : Candidate) : result float :=
  match doc_bm25_score x with
  | Some b => Ok (b * weight_vector + doc_score x)%float
  | None => Raise (KeyError "bm25_score")
  end.

(** The keys of all elements, left to right; the first exception wins. *)
Fixpoint keys_of {A} (key : A -> result float) (l : list A)
  : result (list (float * A)) :=
  match l with
  | [] => Ok []
  | x :: l' =>
      match key x with
      | Raise e => Raise e
      | Ok k =>
          match keys_of key l' with
          | Raise e => Raise e
          | Ok ks => Ok ((k, x) :: ks)
          end
      end
  end.

Definition weight_of (language : string) : float :=
  if String.eqb language "english" then 0.5%float else 1.2%float.

Definition collection_of (language : string) : string :=
  if String.eqb language "arabic" then "rag_docs_ar" else "rag_docs_en".

(** The calls of the second [try] block up to [bm25.get_scores]. *)
Definition lexical_scores {W} (sv : Services W) (query language : string)
    (retrieved_docs : list Candidate) : M W (list float) :=
  let corpus := map doc_text retrieved_docs in
  tokenized_corpus ← for_each (fun doc => tokenize_text sv doc language) corpus;
  call (EvBM25Okapi tokenized_corpus) (BM25Okapi sv tokenized_corpus);;
  query_tokens ← tokenize_text sv query language;
  call (EvGetScores query_tokens) (get_scores sv tokenized_corpus query_tokens).

(** [except Exception as e: print(...)] of the second [try], followed by
    [return retrieved_docs]. *)
Definition bm25_failed {W} (e : exn) (retrieved_docs : list Candidate)
  : M W (list Candidate) :=
  print (MsgBM25Error e);; mret retrieved_docs.

(** The second [try] block and the final [return].  An exception leaves
    [retrieved_docs] bound to the list it had, with the dicts as mutated up to
    that point. *)
Definition rerank {W} (sv : Services W) (query language : string)
    (retrieved_docs : list Candidate) : M W (list Candidate) :=
  try_except
    (bm25_scores ← lexical_scores sv query language retrieved_docs;
     mret (Ok bm25_scores))
    (fun e => mret (Raise e)) ≫= fun r =>
  match r with
  | Raise e => bm25_failed e retrieved_docs
  | Ok bm25_scores =>
      match assign_bm25_scores retrieved_docs bm25_scores 0 with
      | (retrieved_docs, Some e) => bm25_failed e retrieved_docs
      | (retrieved_docs, None) =>
          let weight_vector := weight_of language in
          emit EvSorted;;
          match keys_of (fused_key weight_vector) retrieved_docs with
          | Raise e => bm25_failed e retrieved_docs
          | Ok keyed => mret (sorted keyed true)
          end
      end
  end.

Definition search_documents {W} (sv : Services W) (query language : string)
  : M W (list Candidate) :=
  query_vector ← generate_embedding sv query language;
  let collection_name := collection_of language in
  found ← call (EvCollectionExists collection_name)
               (collection_exists sv collection_name);
  if negb found then
    print (MsgCollectionNotFound collection_name);; mret []
  else
    print (MsgSearching query collection_name);;
    try_except
      (vector_results ← call (EvSearch collection_name query_vector 20)
                             (client_search sv collection_name query_vector 20%nat);
       let retrieved_docs := collect_hits language vector_results in
       print (MsgRetrieved (length retrieved_docs));;
       mret (Some retrieved_docs))
      (fun e => print (MsgVectorSearchError e);; mret None) ≫= fun r =>
    match r with
    | None => mret []
    | Some [] => mret []
    | Some retrieved_docs => rerank sv query language retrieved_docs
    end.

(** * Language detection, answer cleaning and answer generation

    The other functions of [retriever.py], and the search handler of
    [app.py].  What these functions print is left out of the trace. *)

(** ** Strings *)

(** [s.rstrip(c)] for a single character [c]. *)
Fixpoint rstrip (c : ascii) (s : string) : string :=
  match s with
  | EmptyString => EmptyString
  | String a rest =>
      match rstrip c rest with
      | EmptyString => if Ascii.eqb a c then EmptyString else String a EmptyString
      | stripped => String a stripped
      end
  end.

(** [s.replace(old, new)] for a non-empty [old]: the occurrences of [old] are
    replaced from left to right, without overlap.  [skip] counts the
    characters of a replaced occurrence still to pass over. *)
Fixpoint replace_from (skip : nat) (old new s : string) : string :=
  match s with
  | EmptyString => EmptyString
  | String c rest =>
      match skip with
      | S k => replace_from k old new rest
      | O =>
          if String.prefix old s
          then String.append new (replace_from (String.length old - 1) old new rest)
          else String c (replace_from 0 old new rest)
      end
  end.

Definition str_replace (old new s : string) : string := replace_from 0 old new s.

Definition newline : string := String "010"%char EmptyString.
Definition double_quote : string := String "034"%char EmptyString.

(** Where the tag opened just before [s] closes: the number of characters
    before the first [>], if no line break comes first.  This is what
    [.*?>] matches, the dot standing for any character but the line break. *)
Fixpoint close_at (s : string) : option nat :=
  match s with
  | EmptyString => None
  | String c rest =>
      if Ascii.eqb c ">"%char then Some 0%nat
      else if Ascii.eqb c "010"%char then None
      else S <$> close_at rest
  end.

(** [re.sub(r'<.*?>', '', s)]: every leftmost shortest [<...>] is deleted;
    a [<] that no [>] closes on its line stays.  [skip] counts the characters
    of a deleted tag still to pass over. *)
Fixpoint strip_from (skip : nat) (s : string) : string :=
  match s with
  | EmptyString => EmptyString
  | String c rest =>
      match skip with
      | S k => strip_from k rest
      | O =>
          if Ascii.eqb c "<"%char then
            match close_at rest with
            | Some n => strip_from (S n) rest
            | None => String c (strip_from 0 rest)
            end
          else String c (strip_from 0 rest)
      end
  end.

Definition re_sub_tags (s : string) : string := strip_from 0 s.

(** ** [clean_ai_response] *)

Definition rtl_div_open : string :=
  String.concat double_quote
    ["<div dir="; "rtl"; " style=";
     "text-align: right; direction: rtl; unicode-bidi: embed; font-size: 20px; line-height: 2.2; font-family: Arial, sans-serif;";
     ">"].

Definition clean_ai_response (text language : string) : string :=
  let text := re_sub_tags text in
  if String.eqb language "arabic" then
    let text := str_replace "-" "◼" (str_replace "•" "◼" text) in
    let text := str_replace "*" "◼" (str_replace "  *" "◼" text) in
    let text :=
      str_replace "5." "٥."
        (str_replace "4." "٤."
           (str_replace "3." "٣."
              (str_replace "2." "٢." (str_replace "1." "١." text)))) in
    let text := str_replace newline "<br>" text in
    String.append rtl_div_open (String.append text "</div>")
  else text.

(** ** JSON values, as [response.json()] returns them *)

Local Unset Elimination Schemes.
Inductive json : Type :=
  | JNull
  | JBool (b : bool)
  | JNum (n : Q)
  | JStr (s : string)
  | JList (items : list json)
  | JDict (entries : list (string * json)).
Local Set Elimination Schemes.

(** Exceptions of the built-in operations and of [requests]; all are
    subclasses of [Exception]. *)
Definition TypeError : exn := ServiceError "TypeError".
Definition HTTPError : exn := ServiceError "HTTPError".
Definition JSONDecodeError : exn := ServiceError "JSONDecodeError".

(** The value under [key] in a dict. *)
Fixpoint dict_lookup (key : string) (entries : list (string * json)) : option json :=
  match entries with
  | [] => None
  | (k, v) :: rest => if String.eqb k key then Some v else dict_lookup key rest
  end.

Definition json_is_str (s : string) (v : json) : bool :=
  match v with
  | JStr s' => String.eqb s' s
  | _ => false
  end.

(** [key in v] for a [str] key. *)
Definition py_contains (key : string) (v : json) : result bool :=
  match v with
  | JDict entries => Ok (bool_decide (is_Some (dict_lookup key entries)))
  | JList items => Ok (existsb (json_is_str key) items)
  | JStr s => Ok (str_in key s)
  | _ => Raise TypeError
  end.

(** [v[key]] for a [str] key. *)
Definition py_getitem (key : string) (v : json) : result json :=
  match v with
  | JDict entries =>
      match dict_lookup key entries with
      | Some x => Ok x
      | None => Raise (KeyError key)
      end
  | _ => Raise TypeError
  end.

(** The first character of a [str] in UTF-8: a byte and the continuation
    bytes after it. *)
Fixpoint continuation_bytes (s : string) : string :=
  match s with
  | EmptyString => EmptyString
  | String c rest =>
      let n := nat_of_ascii c in
      if ((128 <=? n) && (n <? 192))%nat then String c (continuation_bytes rest)
      else EmptyString
  end.

(** [v[0]] *)
Definition py_getitem_0 (v : json) : result json :=
  match v with
  | JList (x :: _) => Ok x
  | JList [] => Raise IndexError
  | JStr (String c rest) => Ok (JStr (String c (continuation_bytes rest)))
  | JStr EmptyString => Raise IndexError
  | JDict _ => Raise (KeyError "0")
  | _ => Raise TypeError
  end.

(** The truth value of [v] in an [if]. *)
Definition py_truthy (v : json) : bool :=
  match v with
  | JNull => false
  | JBool b => b
  | JNum n => negb (Qeq_bool n 0)
  | JStr s => negb (String.eqb s "")
  | JList items => negb (bool_decide (items = []))
  | JDict entries => negb (bool_decide (entries = []))
  end.

(** ** [detect_language] and [generate_response] *)

(** The answer of [requests.post]. *)
Record Response : Type := {
  status_code : Z;
  (** the body as JSON, [None] when it is not JSON *)
  response_body : option json
}.

Record ChatOptions : Type := {
  opt_temperature : Q;
  opt_top_k : Z;
  opt_max_length : Z;
  opt_repetition_penalty : Q
}.

(** The configuration read from the environment and the two services. *)
Record Backends (W : Type) : Type := {
  AZURE_LANGUAGE_ENDPOINT : string;
  AZURE_LANGUAGE_KEY : string;
  (** [requests.post(endpoint, headers=, json=)], with the subscription key
      of the headers and the text of the payload *)
  requests_post : string -> string -> string -> W -> result Response * W;
  (** [ollama.chat(model=, messages=, options=)["message"]["content"]] *)
  ollama_chat : string -> string -> ChatOptions -> W -> result string * W
}.
Arguments AZURE_LANGUAGE_ENDPOINT {W} b.
Arguments AZURE_LANGUAGE_KEY {W} b.
Arguments requests_post {W} b _ _ _ _.
Arguments ollama_chat {W} b _ _ _ _.

(** A call to a service that the trace does not record. *)
Definition invoke {W A} (f : W -> result A * W) : M W A :=
  fun s =>
    let '(r, w') := f (world s) in
    (r, mkState w' (trace s)).

Definition lift {W A} (r : result A) : M W A := fun s => (r, s).

(** [response.raise_for_status()] *)
Definition raise_for_status {W} (response : Response) : M W unit :=
  if ((400 <=? status_code response) && (status_code response <? 600))%Z
  then raise HTTPError else ret tt.

(** [response.json()] *)
Definition response_json {W} (response : Response) : M W json :=
  match response_body response with
  | Some v => ret v
  | None => raise JSONDecodeError
  end.

(** The [if] inside the [try] of [detect_language]: [Some] is the value of
    the [return] there, [None] means that the [if] is not taken. *)
Definition detected_language {W} (response_json : json) : M W (option string) :=
  has_documents ← lift (py_contains "documents" response_json);
  if has_documents : bool then
    documents ← lift (py_getitem "documents" response_json);
    if py_truthy documents then
      document ← lift (py_getitem_0 documents);
      detected ← lift (py_getitem "detectedLanguage" document);
      detected_lang ← lift (py_getitem "iso6391Name" detected);
      mret (Some (if json_is_str "ar" detected_lang then "arabic" else "english"))
    else mret None
  else mret None.

Definition language_endpoint {W} (be : Backends W) : string :=
  let base_endpoint := rstrip "/" (AZURE_LANGUAGE_ENDPOINT be) in
  String.append base_endpoint "/text/analytics/v3.1/languages".

Definition detect_language {W} (be : Backends W) (text : string) : M W string :=
  let endpoint := language_endpoint be in
  returned ← try_except
    (response ← invoke (requests_post be endpoint (AZURE_LANGUAGE_KEY be) text);
     raise_for_status response;;
     response_json ← response_json response;
     detected_language response_json)
    (fun e => mret None);
  match returned with
  | Some language => mret language
  | None => mret "english"
  end.

Definition arabic_prompt_head : string := "
        جاوب على السؤال التالي باللغة العربية فقط:

        **السؤال:** ".
Definition arabic_prompt_tail : string := "

        **الإجابة يجب أن تكون:**
        ◼ منظمة ومفصلة
        ◼ بدون تكرار غير ضروري
        ◼ لا تتوقف في منتصف الجملة، تأكد من إنهاء الفكرة بالكامل
        ".
Definition english_prompt_head : string :=
  String.append "Answer the following question in clear, well-structured English:"
    (String.append newline newline).

Definition generate_response {W} (be : Backends W) (query : string)
    (max_length : Z) (temperature : Q) (top_k : Z) (repetition_penalty : Q)
  : M W string :=
  language ← detect_language be query;
  let model_name :=
    if String.eqb language "arabic" then "phi4-mini:3.8b" else "gemma3:1b" in
  let prompt :=
    if String.eqb language "arabic"
    then String.append arabic_prompt_head (String.append query arabic_prompt_tail)
    else String.append english_prompt_head query in
  invoke (ollama_chat be model_name prompt
            {| opt_temperature := temperature;
               opt_top_k := top_k;
               opt_max_length := max_length;
               opt_repetition_penalty := repetition_penalty |}).

(** ** The search handler of [app.py]

    [language_option] is the value of the select box, [query_text] the text
    area; the result is what the handler stores in the session: the language
    and the retrieved documents, or nothing for an empty query. *)
Definition search_clicked {W} (sv : Services W) (be : Backends W)
    (language_option query_text : string)
  : M W (option (string * list Candidate)) :=
  if String.eqb query_text "" then mret None
  else
    language ← (if String.eqb language_option "Auto-Detect"
                then detect_language be query_text
                else mret (str_lower sv language_option));
    retrieved_docs ← search_documents sv query_text language;
    mret (Some (language, retrieved_docs)).


(** * Vocabulary of the statements *)

(** ** Order and keys *)

(** Ascending and descending order of the keys of decorated elements. *)
Definition key_le {A} (x y : float * A) : Prop :=
  (fst x <=? fst y)%float = true.
Definition key_ge {A} (x y : float * A) : Prop :=
  (fst y <=? fst x)%float = true.

(** The key is a number. *)
Definition is_number (k : float) : Prop := is_nan k = false.

(** The decorated elements whose key equals [k]. *)
Definition with_key {A} (k : float) (l : list (float * A)) : list (float * A) :=
  List.filter (fun x => (fst x =? k)%float) l.

(** [a] may stand before [b] in descending order of the key. *)
Definition key_geq {A} (key : A -> result float) (a b : A) : Prop :=
  exists ka kb, key a = Ok ka /\ key b = Ok kb /\ (kb <=? ka)%float = true.

(** The key of [x] equals [k]. *)
Definition key_is {A} (key : A -> result float) (k : float) (x : A) : bool :=
  match key x with
  | Ok k' => (k' =? k)%float
  | Raise _ => false
  end.

(** Every pair holds an element and its key. *)
Definition decorated {A} (key : A -> result float) (keyed : list (float * A))
  : Prop :=
  Forall (fun p => key (snd p) = Ok (fst p)) keyed.

(** ** Candidates and hits *)

(** [hit.payload.get("text", "")], the deduplication key of a hit. *)
Definition hit_text (hit : Hit) : string :=
  default "" (payload_text (hit_payload hit)).

(** [hit.payload.get("metadata", {}).get("language")]: the language the
    backend supplies, if any. *)
Definition hit_language (hit : Hit) : option string :=
  payload_metadata (hit_payload hit) ≫= meta_language.

(** [retrieved_docs] once every dict has its score: candidate [i] with
    [bm25_scores[i]]. *)
Definition scored (retrieved_docs : list Candidate) (bm25_scores : list float)
  : list Candidate :=
  zip_with set_bm25_score retrieved_docs bm25_scores.

(** ** States and traces *)

(** The state after some more recorded events. *)
Definition record {W} (s : State W) (evs : list Event) : State W :=
  mkState (world s) (trace s ++ evs).

(** The state in which the second [try] block starts: [s1] is the state
    after the embedding, [w3] the world after the vector search, [n] the
    number of candidates. *)
Definition searched {W} (language query : string) (v : list Q)
    (s1 : State W) (w3 : W) (n : nat) : State W :=
  mkState w3 (trace s1 ++
    [EvCollectionExists (collection_of language);
     EvPrint (MsgSearching query (collection_of language));
     EvSearch (collection_of language) v 20;
     EvPrint (MsgRetrieved n)]).

(** The calls of the lexical-scoring stage and of the fusion stage. *)
Definition is_lexical_event (ev : Event) : bool :=
  match ev with
  | EvWordTokenize _ | EvBM25Okapi _ | EvGetScores _ => true
  | _ => false
  end.

Definition is_fusion_event (ev : Event) : bool :=
  match ev with
  | EvSorted => true
  | _ => false
  end.

Definition is_vector_search_event (ev : Event) : bool :=
  match ev with
  | EvCollectionExists _ | EvSearch _ _ _ => true
  | _ => false
  end.

(** ** Tokens *)

(** A token made of punctuation characters only, and of at least one. *)
Definition is_punctuation_char (c : ascii) : bool :=
  str_in (String c EmptyString) punctuation.

Fixpoint all_chars (p : ascii -> bool) (s : string) : bool :=
  match s with
  | EmptyString => true
  | String c rest => p c && all_chars p rest
  end.

Definition punctuation_only (word : string) : bool :=
  negb (String.eqb word "") && all_chars is_punctuation_char word.

(** * Concrete services, for the examples *)

(** [str.lower] on ASCII letters. *)
Definition ascii_lower (c : ascii) : ascii :=
  let n := nat_of_ascii c in
  if ((65 <=? n) && (n <=? 90))%nat then ascii_of_nat (n + 32) else c.

Fixpoint lower (s : string) : string :=
  match s with
  | EmptyString => EmptyString
  | String c rest => String (ascii_lower c) (lower rest)
  end.

(** Services without state: each one answers with a fixed result. *)
Definition fixed_services (embedding : result (list Q)) (found : result bool)
    (hits : result (list Hit)) (tokens : string -> result (list string))
    (model : result unit) (scores : result (list float)) : Services unit :=
  {| ollama_embeddings := fun _ _ w => (embedding, w);
     collection_exists := fun _ w => (found, w);
     client_search := fun _ _ _ w => (hits, w);
     word_tokenize := fun text w => (tokens text, w);
     BM25Okapi := fun _ w => (model, w);
     get_scores := fun _ _ w => (scores, w);
     str_lower := lower |}.

Definition plain_hit (text : string) (score : float) : Hit :=
  {| hit_payload := {| payload_text := Some text; payload_metadata := None |};
     hit_score := score |}.

Definition start : State unit := mkState tt [].


(** * Vocabulary of the further statements *)

(** Two candidates that agree on every key but ["bm25_score"]. *)
Definition same_but_score (c c0 : Candidate) : Prop :=
  doc_text c = doc_text c0
  /\ doc_score c = doc_score c0
  /\ doc_source c = doc_source c0
  /\ doc_chunk_id c = doc_chunk_id c0
  /\ doc_total_chunks c = doc_total_chunks c0
  /\ doc_language c = doc_language c0
  /\ doc_key_phrases c = doc_key_phrases c0.

(** The character [c] occurs in [s]. *)
Fixpoint has_char (c : ascii) (s : string) : bool :=
  match s with
  | EmptyString => false
  | String a rest => Ascii.eqb a c || has_char c rest
  end.

(** Some [<] of [s] is closed by a [>] on its line: [<.*?>] matches in [s]. *)
Fixpoint has_tag (s : string) : bool :=
  match s with
  | EmptyString => false
  | String c rest =>
      (Ascii.eqb c "<"%char && bool_decide (is_Some (close_at rest)))
      || has_tag rest
  end.

(** Every [>] of [s] comes after a line break: a [<] standing before [s]
    is not closed on its line. *)
Definition unclosed (s : string) : Prop :=
  forall inner after,
    s = String.append inner (String ">"%char after) ->
    has_char "010" inner = true.

(** [out] is [text] without its tags, as [re.sub(r'<.*?>', '', text)] reads
    them: from left to right, a [<] with the characters up to the first [>]
    on its line is a tag and is left out; any other character stays. *)
Inductive tags_removed : string -> string -> Prop :=
  | tags_removed_end : tags_removed EmptyString EmptyString
  | tags_removed_tag (inner rest out : string) :
      has_char ">" inner = false ->
      has_char "010" inner = false ->
      tags_removed rest out ->
      tags_removed
        (String "<"%char (String.append inner (String ">"%char rest))) out
  | tags_removed_char (c : ascii) (rest out : string) :
      c <> "<"%char \/ unclosed rest ->
      tags_removed rest out ->
      tags_removed (String c rest) (String c out).

(** [out] is [s] with the occurrences of [old] replaced by [new], as
    [s.replace(old, new)] finds them: from left to right, where [old] starts
    it is replaced and the search goes on behind it; elsewhere the character
    stays. *)
Inductive replaced (old new : string) : string -> string -> Prop :=
  | replaced_end : replaced old new EmptyString EmptyString
  | replaced_here (rest out : string) :
      replaced old new rest out ->
      replaced old new (String.append old rest) (String.append new out)
  | replaced_next (c : ascii) (rest out : string) :
      String.prefix old (String c rest) = false ->
      replaced old new rest out ->
      replaced old new (String c rest) (String c out).

(** The steps of [clean_ai_response] for arabic, in their order. *)
Definition arabic_cleaned (text result : string) : Prop :=
  exists t0 t1 t2 t3 t4 t5 t6 t7 t8 t9 body,
    tags_removed text t0
    /\ replaced "•" "◼" t0 t1
    /\ replaced "-" "◼" t1 t2
    /\ replaced "  *" "◼" t2 t3
    /\ replaced "*" "◼" t3 t4
    /\ replaced "1." "١." t4 t5
    /\ replaced "2." "٢." t5 t6
    /\ replaced "3." "٣." t6 t7
    /\ replaced "4." "٤." t7 t8
    /\ replaced "5." "٥." t8 t9
    /\ replaced newline "<br>" t9 body
    /\ result = String.append rtl_div_open (String.append body "</div>").

(** [n] slashes. *)
Fixpoint slashes (n : nat) : string :=
  match n with
  | O => EmptyString
  | S k => String "/"%char (slashes k)
  end.

(** The last character of [s] is [c]. *)
Fixpoint ends_with (c : ascii) (s : string) : bool :=
  match s with
  | EmptyString => false
  | String a EmptyString => Ascii.eqb a c
  | String _ rest => ends_with c rest
  end.

(** Backends without state: the language service and the chat model answer
    with fixed results. *)
Definition fixed_backends (endpoint : string) (posted : result Response)
    (chat : string -> string -> result string) : Backends unit :=
  {| AZURE_LANGUAGE_ENDPOINT := endpoint;
     AZURE_LANGUAGE_KEY := "key";
     requests_post := fun _ _ _ w => (posted, w);
     ollama_chat := fun model prompt _ w => (chat model prompt, w) |}.

(** The answer of the language service for a text in the language [code]. *)
Definition language_response (code : string) : Response :=
  {| status_code := 200;
     response_body :=
       Some (JDict [("documents",
                     JList [JDict [("id", JStr "1");
                                   ("detectedLanguage",
                                    JDict [("name", JStr "?");
                                           ("iso6391Name", JStr code)])]])]) |}.

(** * Facts *)

(** ** Running the monad *)

Lemma run_bind {W A B} (m : M W A) (k : A -> M W B) (s : State W) :
  (m ≫= k) s
  = match m s with
    | (Ok a, s') => k a s'
    | (Raise e, s') => (Raise e, s')
    end.
Proof. reflexivity. Qed.

Lemma run_call {W A} (ev : Event) (f : W -> result A * W) (s : State W) r w' :
  f (world s) = (r, w') ->
  call ev f s = (r, mkState w' (trace s ++ [ev])).
Proof. intros Hf. unfold call. now rewrite Hf. Qed.

(** ** The order of binary64 numbers *)

(** [SFcompare] is antisymmetric. *)
Lemma SFcompare_swap (a b : spec_float) :
  SFcompare b a = option_map CompOpp (SFcompare a b).
Proof.
  destruct a as [[]|[]| |[] m1 e1], b as [[]|[]| |[] m2 e2]; try reflexivity;
    cbn [SFcompare option_map]; f_equal;
    rewrite (Z.compare_antisym e1 e2);
    change (Pos.compare_cont Eq m2 m1) with (Pos.compare m2 m1);
    change (Pos.compare_cont Eq m1 m2) with (Pos.compare m1 m2);
    rewrite (Pos.compare_antisym m1 m2);
    destruct (e1 ?= e2)%Z, (m1 ?= m2)%positive; reflexivity.
Qed.

(** Case analysis on the comparisons of exponents and mantissas. *)
Local Ltac compare_cases :=
  repeat match goal with
  | |- context [(?x ?= ?y)%Z] => destruct (Z.compare_spec x y)
  | H : context [(?x ?= ?y)%Z] |- _ => destruct (Z.compare_spec x y)
  | |- context [(?x ?= ?y)%positive] => destruct (Pos.compare_spec x y)
  | H : context [(?x ?= ?y)%positive] |- _ => destruct (Pos.compare_spec x y)
  end; cbn in *; try reflexivity; try discriminate; try lia.

Lemma SFleb_trans (a b c : spec_float) :
  SFleb a b = true -> SFleb b c = true -> SFleb a c = true.
Proof.
  unfold SFleb.
  destruct a as [[]|[]| |[] m1 e1], b as [[]|[]| |[] m2 e2],
    c as [[]|[]| |[] m3 e3]; cbn [SFcompare]; try reflexivity;
    try discriminate;
    change (Pos.compare_cont Eq) with Pos.compare; intros Hab Hbc;
    compare_cases.
Qed.

Lemma SFltb_leb (a b : spec_float) : SFltb a b = true -> SFleb a b = true.
Proof. unfold SFltb, SFleb. now destruct (SFcompare a b) as [[]|]. Qed.

Lemma SFnlt_leb (a b : spec_float) :
  a <> S754_nan -> b <> S754_nan -> SFltb a b = false -> SFleb b a = true.
Proof.
  intros Ha Hb. unfold SFltb, SFleb. rewrite (SFcompare_swap a b).
  destruct (SFcompare a b) as [[]|] eqn:Hc; cbn; try done.
  destruct a, b; try discriminate Hc; congruence.
Qed.

Lemma SFeqb_nlt (x y k : spec_float) :
  SFeqb x k = true -> SFeqb y k = true -> SFltb y x = false.
Proof.
  unfold SFeqb, SFltb.
  destruct x as [[]|[]| |[] m1 e1], y as [[]|[]| |[] m2 e2],
    k as [[]|[]| |[] m3 e3]; cbn [SFcompare]; try reflexivity;
    try discriminate;
    change (Pos.compare_cont Eq) with Pos.compare; intros Hab Hbc;
    compare_cases.
Qed.

Lemma is_nan_Prim2SF (x : float) : is_nan x = false -> Prim2SF x <> S754_nan.
Proof.
  unfold is_nan. rewrite FloatAxioms.eqb_spec. intros H Hnan. rewrite Hnan in H.
  discriminate H.
Qed.

Lemma float_ltb_leb (a b : float) : (a <? b)%float = true -> (a <=? b)%float = true.
Proof. rewrite FloatAxioms.ltb_spec, FloatAxioms.leb_spec. apply SFltb_leb. Qed.

Lemma float_nlt_leb (a b : float) :
  is_nan a = false -> is_nan b = false ->
  (a <? b)%float = false -> (b <=? a)%float = true.
Proof.
  intros Ha Hb. rewrite FloatAxioms.ltb_spec, FloatAxioms.leb_spec.
  apply SFnlt_leb; now apply is_nan_Prim2SF.
Qed.

Lemma float_leb_trans (a b c : float) :
  (a <=? b)%float = true -> (b <=? c)%float = true -> (a <=? c)%float = true.
Proof. rewrite !FloatAxioms.leb_spec. apply SFleb_trans. Qed.

Lemma float_eqb_nlt (x y k : float) :
  (x =? k)%float = true -> (y =? k)%float = true -> (y <? x)%float = false.
Proof. rewrite !FloatAxioms.eqb_spec, FloatAxioms.ltb_spec. apply SFeqb_nlt. Qed.

(** ** [list.sort] and [sorted] *)

Section sorting_facts.
Context {A : Type}.
Implicit Types (x y : float * A) (l : list (float * A)) (k : float).

Lemma insert_by_key_perm x l : insert_by_key x l ≡ₚ x :: l.
Proof.
  induction l as [|y l IH]; simpl; [done|].
  destruct (fst y <? fst x)%float; [|done].
  rewrite IH. apply Permutation_swap.
Qed.

Lemma list_sort_perm l : list_sort l ≡ₚ l.
Proof.
  induction l as [|x l IH]; simpl; [done|].
  unfold list_sort in *. simpl. now rewrite insert_by_key_perm, IH.
Qed.

(** Insertion keeps the ascending order, as long as the keys are numbers. *)
Lemma insert_by_key_sorted x l :
  is_number (fst x) -> Forall (fun y => is_number (fst y)) l ->
  StronglySorted key_le l -> StronglySorted key_le (insert_by_key x l).
Proof.
  intros Hx Hl Hs. induction Hs as [|y l Hs IH Hy]; simpl.
  - repeat constructor.
  - apply Forall_cons in Hl as [Hny Hl].
    destruct (fst y <? fst x)%float eqn:Hlt.
    + constructor; [now apply IH|].
      rewrite insert_by_key_perm. constructor; [|done].
      now apply float_ltb_leb.
    + pose proof (float_nlt_leb _ _ Hny Hx Hlt) as Hxy.
      constructor; [now constructor|].
      constructor; [done|].
      eapply Forall_impl; [exact Hy|].
      intros z Hz. unfold key_le in *. now apply float_leb_trans with (fst y).
Qed.

Lemma list_sort_sorted l :
  Forall (fun y => is_number (fst y)) l -> StronglySorted key_le (list_sort l).
Proof.
  induction 1 as [|x l Hx Hl IH]; [constructor|].
  apply insert_by_key_sorted; [done| |done].
  fold (list_sort l). now rewrite list_sort_perm.
Qed.

(** Insertion never lets an element overtake one of the same key. *)
Lemma insert_by_key_stable k x l :
  with_key k (insert_by_key x l) = with_key k (x :: l).
Proof.
  induction l as [|y l IH]; simpl; [done|].
  destruct (fst y <? fst x)%float eqn:Hlt; [|done].
  unfold with_key in *. simpl in *. rewrite IH.
  destruct (fst x =? k)%float eqn:Hx, (fst y =? k)%float eqn:Hy; try done.
  rewrite (float_eqb_nlt _ _ _ Hx Hy) in Hlt. discriminate Hlt.
Qed.

Lemma list_sort_stable k l : with_key k (list_sort l) = with_key k l.
Proof.
  induction l as [|x l IH]; [done|].
  unfold list_sort in *. simpl. rewrite insert_by_key_stable.
  unfold with_key in *. simpl. now rewrite IH.
Qed.

Lemma StronglySorted_rev (R : relation (float * A)) l :
  StronglySorted R l -> StronglySorted (flip R) (rev l).
Proof.
  induction 1 as [|x l Hl IH Hx]; simpl; [constructor|].
  apply StronglySorted_app. split_and!.
  - intros y z Hy Hz. apply list_elem_of_singleton in Hz as ->.
    rewrite Forall_forall in Hx. apply Hx.
    apply list_elem_of_In. apply in_rev. now apply list_elem_of_In.
  - done.
  - repeat constructor.
Qed.

(** The three properties of the list [sorted(..., reverse=True)] works on. *)
Lemma sorted_reverse_perm l : rev (list_sort (rev l)) ≡ₚ l.
Proof.
  rewrite <- (Permutation_rev (list_sort (rev l))), list_sort_perm.
  symmetry. apply Permutation_rev.
Qed.

Lemma sorted_reverse_sorted l :
  Forall (fun y => is_number (fst y)) l ->
  StronglySorted key_ge (rev (list_sort (rev l))).
Proof.
  intros Hl. apply (StronglySorted_rev key_le), list_sort_sorted.
  now rewrite <- Permutation_rev.
Qed.

Lemma sorted_reverse_stable k l :
  with_key k (rev (list_sort (rev l))) = with_key k l.
Proof.
  unfold with_key. rewrite List.filter_rev.
  fold (with_key k (list_sort (rev l))). rewrite list_sort_stable.
  unfold with_key. now rewrite List.filter_rev, rev_involutive.
Qed.
End sorting_facts.

(** ** [sorted] with a key function *)

Section sorted_with_key.
Context {A : Type} (key : A -> result float).
Local Abbreviation decorated := (decorated key).
Local Abbreviation key_geq := (key_geq key).
Local Abbreviation key_is := (key_is key).

Lemma keys_of_decorated l keyed :
  keys_of key l = Ok keyed -> decorated keyed /\ map snd keyed = l.
Proof.
  revert keyed. induction l as [|x l IH]; simpl; intros keyed Hk.
  - injection Hk as <-. split; [constructor | done].
  - destruct (key x) as [k|e] eqn:Hx; [|done].
    destruct (keys_of key l) as [ks|e]; [|done].
    injection Hk as <-. destruct (IH ks eq_refl) as [Hd Hm].
    split; [now constructor | simpl; now rewrite Hm].
Qed.

Lemma decorated_sorted keyed :
  decorated keyed -> StronglySorted key_ge keyed ->
  StronglySorted key_geq (map snd keyed).
Proof.
  intros Hd Hs. induction Hs as [|p l Hl IH Hp]; simpl; [constructor|].
  apply Forall_cons in Hd as [Hp0 Hd]. constructor; [now apply IH|].
  apply Forall_map, Forall_forall. intros q Hq.
  exists (fst p), (fst q). split_and!; [done| |].
  - rewrite Forall_forall in Hd. now apply Hd.
  - rewrite Forall_forall in Hp. now apply Hp.
Qed.

Lemma decorated_with_key k keyed :
  decorated keyed ->
  List.filter (key_is k) (map snd keyed) = map snd (with_key k keyed).
Proof.
  induction 1 as [|p l Hp Hl IH]; simpl; [done|].
  unfold key_is at 1. rewrite Hp.
  destruct (fst p =? k)%float; simpl; now rewrite IH.
Qed.

(** What [sorted(l, key=, reverse=True)] returns: a rearrangement of [l],
    elements of equal key in the order of [l]. *)
Lemma sorted_reverse_rearranges l keyed :
  keys_of key l = Ok keyed ->
  sorted keyed true ≡ₚ l
  /\ forall k, List.filter (key_is k) (sorted keyed true) = List.filter (key_is k) l.
Proof.
  intros Hk. apply keys_of_decorated in Hk as [Hd Hm]. unfold sorted.
  assert (Hd' : decorated (rev (list_sort (rev keyed)))).
  { unfold decorated. now rewrite sorted_reverse_perm. }
  split.
  - rewrite sorted_reverse_perm. now rewrite Hm.
  - intros k. rewrite decorated_with_key by done.
    rewrite sorted_reverse_stable, <- decorated_with_key by done.
    now rewrite Hm.
Qed.

(** When the keys are numbers, the list is in descending order of the key. *)
Lemma sorted_reverse_descending l keyed :
  keys_of key l = Ok keyed ->
  Forall (fun x => forall k, key x = Ok k -> is_number k) l ->
  StronglySorted key_geq (sorted keyed true).
Proof.
  intros Hk Hnum. apply keys_of_decorated in Hk as [Hd Hm]. unfold sorted.
  assert (Hkeys : Forall (fun p : float * A => is_number (fst p)) keyed).
  { subst l. clear -Hd Hnum. induction Hd as [|p keyed Hp Hd IH]; [constructor|].
    simpl in Hnum. apply Forall_cons in Hnum as [Hp' Hnum].
    constructor; [now apply Hp' | now apply IH]. }
  apply decorated_sorted; [|now apply sorted_reverse_sorted].
  unfold decorated. now rewrite sorted_reverse_perm.
Qed.
End sorted_with_key.

(** ** The re-ranking loop and the keys *)

Lemma assign_bm25_scores_enough docs scores idx :
  (idx + length docs <= length scores)%nat ->
  assign_bm25_scores docs scores idx = (scored docs (drop idx scores), None).
Proof.
  revert idx. induction docs as [|doc docs IH]; simpl; intros idx Hlen.
  - done.
  - destruct (scores !! idx) as [sc|] eqn:Hs.
    + rewrite (IH (S idx)) by lia.
      unfold scored. erewrite (drop_S scores sc idx) by done. done.
    + apply lookup_ge_None in Hs. lia.
Qed.

Lemma keys_of_scored w docs scores :
  (length docs <= length scores)%nat ->
  exists keyed, keys_of (fused_key w) (scored docs scores) = Ok keyed.
Proof.
  revert scores. induction docs as [|doc docs IH]; intros [|sc scores] Hlen;
    simpl in *; try lia; [by eexists..|].
  destruct (IH scores) as [keyed Hk]; [lia|].
  unfold scored in *. cbn [zip_with keys_of fused_key set_bm25_score doc_bm25_score].
  rewrite Hk. by eexists.
Qed.

(** ** Runs of [generate_embedding] and [search_documents] *)

Section runs.
Context {W : Type} (sv : Services W).
Implicit Types (s : State W) (query language : string).

Lemma generate_embedding_run text language s raw w' expected_size :
  ollama_embeddings sv "bge-m3" text (world s) = (Ok raw, w') ->
  EMBEDDING_SIZES !! language = Some expected_size ->
  generate_embedding sv text language s
  = (Ok (if (length raw <? expected_size)%nat
         then np_pad_right raw (expected_size - length raw)
         else if (expected_size <? length raw)%nat
              then take expected_size raw else raw),
     mkState w' (trace s ++ [EvEmbeddings "bge-m3" text])).
Proof.
  intros Hcall Hsize. unfold generate_embedding.
  replace (if String.eqb language "arabic" then "bge-m3" else "bge-m3")
    with "bge-m3" by now destruct (String.eqb language "arabic").
  rewrite run_bind, (run_call _ _ _ _ _ Hcall), run_bind.
  unfold dict_get. now rewrite Hsize.
Qed.

Lemma generate_embedding_raise text language s e w' :
  ollama_embeddings sv "bge-m3" text (world s) = (Raise e, w') ->
  generate_embedding sv text language s
  = (Raise e, mkState w' (trace s ++ [EvEmbeddings "bge-m3" text])).
Proof.
  intros Hcall. unfold generate_embedding.
  replace (if String.eqb language "arabic" then "bge-m3" else "bge-m3")
    with "bge-m3" by now destruct (String.eqb language "arabic").
  now rewrite run_bind, (run_call _ _ _ _ _ Hcall).
Qed.

Lemma search_documents_embedding_raise query language s e s1 :
  generate_embedding sv query language s = (Raise e, s1) ->
  search_documents sv query language s = (Raise e, s1).
Proof. intros He. unfold search_documents. now rewrite run_bind, He. Qed.

Lemma search_documents_not_found query language s v s1 w2 :
  generate_embedding sv query language s = (Ok v, s1) ->
  collection_exists sv (collection_of language) (world s1) = (Ok false, w2) ->
  search_documents sv query language s
  = (Ok [], mkState w2 (trace s1 ++
       [EvCollectionExists (collection_of language);
        EvPrint (MsgCollectionNotFound (collection_of language))])).
Proof.
  intros He Hc. unfold search_documents.
  rewrite run_bind, He, run_bind, (run_call _ _ _ _ _ Hc). simpl.
  unfold mbind, M_bind, bind, print, emit, mret, M_ret, ret. simpl.
  now rewrite <- app_assoc.
Qed.

Lemma search_documents_search_raise query language s v s1 w2 e w3 :
  generate_embedding sv query language s = (Ok v, s1) ->
  collection_exists sv (collection_of language) (world s1) = (Ok true, w2) ->
  client_search sv (collection_of language) v 20 w2 = (Raise e, w3) ->
  search_documents sv query language s
  = (Ok [], mkState w3 (trace s1 ++
       [EvCollectionExists (collection_of language);
        EvPrint (MsgSearching query (collection_of language));
        EvSearch (collection_of language) v 20;
        EvPrint (MsgVectorSearchError e)])).
Proof.
  intros He Hc Hs. unfold search_documents.
  rewrite run_bind, He, run_bind, (run_call _ _ _ _ _ Hc). simpl.
  unfold mbind, M_bind, bind, try_except, call, print, emit, mret, M_ret, ret.
  simpl. rewrite Hs. simpl. now rewrite <- !app_assoc.
Qed.

Lemma search_documents_hits query language s v s1 w2 hits w3 :
  generate_embedding sv query language s = (Ok v, s1) ->
  collection_exists sv (collection_of language) (world s1) = (Ok true, w2) ->
  client_search sv (collection_of language) v 20 w2 = (Ok hits, w3) ->
  let docs := collect_hits language hits in
  let s3 := searched language query v s1 w3 (length docs) in
  search_documents sv query language s
  = match docs with
    | [] => (Ok [], s3)
    | _ => rerank sv query language docs s3
    end.
Proof.
  intros He Hc Hs docs s3. unfold search_documents.
  rewrite run_bind, He, run_bind, (run_call _ _ _ _ _ Hc). simpl.
  unfold mbind at 1 2, M_bind at 1 2, bind at 1 2.
  unfold try_except, call, print, emit, mret, M_ret, ret,
    mbind at 1 2, M_bind at 1 2, bind at 1 2.
  simpl. rewrite Hs. simpl. rewrite <- !app_assoc. simpl.
  fold docs. fold s3. subst s3. unfold searched. now destruct docs.
Qed.

Lemma rerank_raise query language docs s e s' :
  lexical_scores sv query language docs s = (Raise e, s') ->
  rerank sv query language docs s
  = (Ok docs, record s' [EvPrint (MsgBM25Error e)]).
Proof.
  intros Hl. unfold rerank.
  rewrite run_bind. unfold try_except. rewrite run_bind, Hl. reflexivity.
Qed.

Lemma rerank_scored query language docs s scores s' :
  lexical_scores sv query language docs s = (Ok scores, s') ->
  (length docs <= length scores)%nat ->
  exists keyed,
    keys_of (fused_key (weight_of language)) (scored docs scores) = Ok keyed
    /\ rerank sv query language docs s
       = (Ok (sorted keyed true), record s' [EvSorted]).
Proof.
  intros Hl Hlen.
  destruct (keys_of_scored (weight_of language) docs scores Hlen) as [keyed Hk].
  exists keyed. split; [done|]. unfold rerank.
  rewrite run_bind. unfold try_except. rewrite run_bind, Hl.
  unfold mret at 1, M_ret at 1, ret at 1.
  rewrite assign_bm25_scores_enough by (simpl; lia).
  rewrite drop_0, run_bind. simpl. now rewrite Hk.
Qed.

End runs.

(** ** Deduplication: [for hit in vector_results] *)

Section dedup.
Context (language : string).
Implicit Types (hit h : Hit) (hits pre post : list Hit) (c : Candidate).

Lemma candidate_text h : doc_text (candidate_of_hit language h) = hit_text h.
Proof. reflexivity. Qed.

(** [seen_texts] holds the texts of the hits gone through. *)
Lemma seen_texts_spec hits t :
  t ∈ snd (fold_left (add_hit language) hits ([], ∅)) <-> t ∈ map hit_text hits.
Proof.
  induction hits as [|h hits IH] using rev_ind; simpl.
  - split; intros Ht; [now apply not_elem_of_empty in Ht | now apply elem_of_nil in Ht].
  - rewrite fold_left_app, map_app. simpl.
    destruct (fold_left (add_hit language) hits ([], ∅)) as [docs seen].
    simpl in *. fold (hit_text h).
    destruct (decide (hit_text h ∉ seen)) as [Hn|Hn]; simpl.
    + now rewrite elem_of_union, elem_of_singleton, IH, elem_of_app,
        list_elem_of_singleton.
    + apply dec_stable in Hn. rewrite elem_of_app, list_elem_of_singleton.
      split; [intros Ht; left; now apply IH|].
      intros [Ht| ->]; [now apply IH | done].
Qed.

(** One more hit at the end of the results. *)
Lemma collect_hits_snoc hits h :
  collect_hits language (hits ++ [h])
  = if decide (hit_text h ∈ map hit_text hits)
    then collect_hits language hits
    else collect_hits language hits ++ [candidate_of_hit language h].
Proof.
  unfold collect_hits. rewrite fold_left_app. simpl.
  pose proof (seen_texts_spec hits (hit_text h)) as Hseen.
  destruct (fold_left (add_hit language) hits ([], ∅)) as [docs seen].
  simpl in *. fold (hit_text h).
  destruct (decide (hit_text h ∉ seen)) as [Hn|Hn],
    (decide (hit_text h ∈ map hit_text hits)) as [Hi|Hi]; simpl; try done.
  - now apply Hseen in Hi.
  - apply dec_stable in Hn. now apply Hseen in Hn.
Qed.

Lemma collect_hits_nil : collect_hits language [] = [].
Proof. reflexivity. Qed.

(** Every candidate is built from a hit that no earlier hit shares its text
    with. *)
Lemma collect_hits_origin hits c :
  c ∈ collect_hits language hits ->
  exists pre h post,
    hits = pre ++ h :: post /\ c = candidate_of_hit language h
    /\ hit_text h ∉ map hit_text pre.
Proof.
  induction hits as [|x hits IH] using rev_ind.
  - rewrite collect_hits_nil. now intros ?%elem_of_nil.
  - rewrite collect_hits_snoc.
    destruct (decide (hit_text x ∈ map hit_text hits)) as [Hi|Hi].
    + intros (pre & h & post & -> & -> & Hfirst)%IH.
      exists pre, h, (post ++ [x]). now rewrite <- app_assoc.
    + intros [Hc|Hc]%elem_of_app.
      * apply IH in Hc as (pre & h & post & -> & -> & Hfirst).
        exists pre, h, (post ++ [x]). now rewrite <- app_assoc.
      * apply list_elem_of_singleton in Hc as ->.
        exists hits, x, []. done.
Qed.

(** The first hit of each text is kept. *)
Lemma collect_hits_first pre h post :
  hit_text h ∉ map hit_text pre ->
  candidate_of_hit language h ∈ collect_hits language (pre ++ h :: post).
Proof.
  intros Hfirst. induction post as [|x post IH] using rev_ind.
  - rewrite collect_hits_snoc. rewrite decide_False by done.
    apply elem_of_app. right. now apply list_elem_of_singleton.
  - replace (pre ++ h :: post ++ [x]) with ((pre ++ h :: post) ++ [x])
      by now rewrite <- app_assoc.
    rewrite collect_hits_snoc. case_decide; [done|].
    apply elem_of_app. now left.
Qed.

Lemma collect_hits_texts hits t :
  t ∈ map doc_text (collect_hits language hits) -> t ∈ map hit_text hits.
Proof.
  intros (c & <- & Hc)%list_elem_of_In%in_map_iff.
  apply list_elem_of_In, collect_hits_origin in Hc
    as (pre & h & post & -> & -> & _).
  rewrite candidate_text, map_app. simpl.
  apply elem_of_app. right. apply list_elem_of_here.
Qed.

Lemma collect_hits_NoDup hits : NoDup (map doc_text (collect_hits language hits)).
Proof.
  induction hits as [|x hits IH] using rev_ind.
  - constructor.
  - rewrite collect_hits_snoc. case_decide as Hi; [done|].
    rewrite map_app. simpl. apply NoDup_app. split_and!; [done| |].
    + intros t Ht ->%list_elem_of_singleton.
      now apply collect_hits_texts in Ht.
    + apply NoDup_singleton.
Qed.

Lemma collect_hits_sublist hits :
  sublist (collect_hits language hits) (map (candidate_of_hit language) hits).
Proof.
  induction hits as [|x hits IH] using rev_ind.
  - constructor.
  - rewrite collect_hits_snoc, map_app. simpl. case_decide.
    + now apply sublist_inserts_r.
    + now apply sublist_app.
Qed.

Lemma collect_hits_empty hits : collect_hits language hits = [] -> hits = [].
Proof.
  destruct hits as [|h hits]; [done|]. intros Hnil.
  pose proof (collect_hits_first [] h hits) as Hin. simpl in Hin.
  rewrite Hnil in Hin. exfalso. eapply not_elem_of_nil, Hin.
  apply not_elem_of_nil.
Qed.

Lemma collect_hits_unscored hits :
  Forall (fun c => doc_bm25_score c = None) (collect_hits language hits).
Proof.
  apply Forall_forall. intros c (pre & h & post & _ & -> & _)%collect_hits_origin.
  reflexivity.
Qed.

End dedup.

(** ** What the stages write to the trace *)

Section traces.
Context {W : Type} (sv : Services W).
Implicit Types (s : State W) (query language text : string).

Lemma call_trace {A} ev (f : W -> result A * W) s r s' :
  call ev f s = (r, s') -> trace s' = trace s ++ [ev].
Proof.
  unfold call. destruct (f (world s)) as [r0 w']. now intros [= _ <-].
Qed.

Lemma generate_embedding_trace text language s r s1 :
  generate_embedding sv text language s = (r, s1) ->
  trace s1 = trace s ++ [EvEmbeddings "bge-m3" text].
Proof.
  unfold generate_embedding.
  replace (if String.eqb language "arabic" then "bge-m3" else "bge-m3")
    with "bge-m3" by now destruct (String.eqb language "arabic").
  rewrite run_bind.
  destruct (call _ _ s) as [[raw|e] s0] eqn:Hcall;
    apply call_trace in Hcall as <-.
  - rewrite run_bind. unfold dict_get.
    destruct (EMBEDDING_SIZES !! language); now intros [= _ <-].
  - now intros [= _ <-].
Qed.

Lemma tokenize_text_trace text language s r s' :
  tokenize_text sv text language s = (r, s') ->
  trace s' = trace s ++ [EvWordTokenize text].
Proof.
  unfold tokenize_text. destruct (String.eqb language "arabic").
  - apply call_trace.
  - rewrite run_bind.
    destruct (call _ _ s) as [[words|e] s0] eqn:Hcall;
      apply call_trace in Hcall as <-; now intros [= _ <-].
Qed.

Lemma tokenize_corpus_trace corpus language s r s' :
  for_each (fun doc => tokenize_text sv doc language) corpus s = (r, s') ->
  exists evs, trace s' = trace s ++ evs /\ forallb is_lexical_event evs = true.
Proof.
  revert s r s'. induction corpus as [|doc corpus IH]; simpl; intros s r s'.
  - intros [= _ <-]. exists []. now rewrite app_nil_r.
  - rewrite run_bind.
    destruct (tokenize_text sv doc language s) as [[toks|e] s0] eqn:Htok;
      apply tokenize_text_trace in Htok.
    + rewrite run_bind.
      destruct (for_each _ corpus s0) as [[ys|e] s2] eqn:Hrest;
        apply IH in Hrest as (evs & Hevs & Hlex); intros [= _ <-];
        exists (EvWordTokenize doc :: evs);
        (split; [now rewrite Hevs, Htok, <- app_assoc | done]).
    + intros [= _ <-]. now exists [EvWordTokenize doc].
Qed.

Lemma lexical_scores_trace query language docs s r s' :
  lexical_scores sv query language docs s = (r, s') ->
  exists evs, trace s' = trace s ++ evs /\ forallb is_lexical_event evs = true.
Proof.
  unfold lexical_scores. rewrite run_bind.
  destruct (for_each _ _ s) as [[corpus|e] s0] eqn:Hcorpus;
    apply tokenize_corpus_trace in Hcorpus as (evs0 & Hevs0 & Hlex0);
    [|intros [= _ <-]; now exists evs0].
  rewrite run_bind.
  destruct (call _ _ s0) as [[[]|e] s2] eqn:Hmodel;
    apply call_trace in Hmodel;
    [|intros [= _ <-]; exists (evs0 ++ [EvBM25Okapi corpus]);
      split; [now rewrite Hmodel, Hevs0, <- app_assoc
             | now rewrite forallb_app, Hlex0]].
  rewrite run_bind.
  destruct (tokenize_text sv query language s2) as [[toks|e] s3] eqn:Htok;
    apply tokenize_text_trace in Htok;
    [|intros [= _ <-];
      exists (evs0 ++ [EvBM25Okapi corpus; EvWordTokenize query]);
      split; [rewrite Htok, Hmodel, Hevs0, <- !app_assoc; done
             | now rewrite forallb_app, Hlex0]].
  intros Hget. apply call_trace in Hget.
  exists (evs0 ++ [EvBM25Okapi corpus; EvWordTokenize query; EvGetScores toks]).
  split; [rewrite Hget, Htok, Hmodel, Hevs0, <- !app_assoc; done
         | now rewrite forallb_app, Hlex0].
Qed.

End traces.

(** * The claims *)

(** ** Embedding size *)

(** C2.  For english and arabic, when the model answers with a raw embedding,
    [generate_embedding] returns a list of exactly [EMBEDDING_SIZES[language]]
    elements: the raw embedding followed by zeros when it is shorter, its first
    [expected_size] elements when it is longer, the raw embedding itself when
    the sizes agree. *)
Theorem generate_embedding_expected_size {W} (sv : Services W)
    (text language : string) (s : State W) (raw : list Q) (w' : W) :
  language = "english" \/ language = "arabic" ->
  ollama_embeddings sv "bge-m3" text (world s) = (Ok raw, w') ->
  exists expected_size embedding s',
    EMBEDDING_SIZES !! language = Some expected_size
    /\ generate_embedding sv text language s = (Ok embedding, s')
    /\ length embedding = expected_size
    /\ ((length raw < expected_size)%nat ->
        embedding = raw ++ replicate (expected_size - length raw) 0%Q)
    /\ ((expected_size < length raw)%nat -> embedding = take expected_size raw)
    /\ (length raw = expected_size -> embedding = raw).
Proof.
  intros Hlang Hcall.
  assert (Hsize : EMBEDDING_SIZES !! language = Some 1024%nat)
    by (destruct Hlang as [-> | ->]; vm_compute; reflexivity).
  exists 1024%nat. eexists. eexists. split; [exact Hsize|].
  split; [exact (generate_embedding_run sv _ _ _ _ _ _ Hcall Hsize)|].
  destruct (Nat.ltb_spec (length raw) 1024) as [Hlt|Hge].
  - unfold np_pad_right. split_and!; try (intros; lia); [|done].
    rewrite length_app, length_replicate. lia.
  - destruct (Nat.ltb_spec 1024 (length raw)) as [Hgt|Hle].
    + split_and!; try (intros; lia); [|done].
      rewrite length_take. lia.
    + split_and!; try (intros; lia); done.
Qed.

Lemma generate_embedding_expected_size_witness :
  exists expected_size embedding s',
    EMBEDDING_SIZES !! "english" = Some expected_size
    /\ generate_embedding
         (fixed_services (Ok [1 # 2; 1 # 3]) (Ok true) (Ok []) (fun _ => Ok [])
                         (Ok tt) (Ok []))
         "query" "english" start = (Ok embedding, s')
    /\ length embedding = expected_size
    /\ ((length [1 # 2; 1 # 3] < expected_size)%nat ->
        embedding = [1 # 2; 1 # 3] ++ replicate (expected_size - 2) 0%Q)
    /\ ((expected_size < length [1 # 2; 1 # 3])%nat ->
        embedding = take expected_size [1 # 2; 1 # 3])
    /\ (length [1 # 2; 1 # 3] = expected_size -> embedding = [1 # 2; 1 # 3]).
Proof.
  apply (generate_embedding_expected_size
           (fixed_services (Ok [1 # 2; 1 # 3]) (Ok true) (Ok [])
                           (fun _ => Ok []) (Ok tt) (Ok []))
           "query" "english" start [1 # 2; 1 # 3] tt).
  - left. reflexivity.
  - reflexivity.
Defined.

(** ** Deduplication *)

(** C3.  The candidates built from the hits have pairwise different texts;
    they are candidates of hits, in the order of the hits; the first hit of
    each text is kept, whatever its score; and every candidate is built from
    the first hit of its text, so that a hit whose text an earlier hit has is
    discarded. *)
Theorem collect_hits_first_occurrence (language : string) (hits : list Hit) :
  NoDup (map doc_text (collect_hits language hits))
  /\ sublist (collect_hits language hits) (map (candidate_of_hit language) hits)
  /\ (forall pre h post,
        hits = pre ++ h :: post -> hit_text h ∉ map hit_text pre ->
        candidate_of_hit language h ∈ collect_hits language hits)
  /\ (forall c,
        c ∈ collect_hits language hits ->
        exists pre h post,
          hits = pre ++ h :: post /\ c = candidate_of_hit language h
          /\ hit_text h ∉ map hit_text pre).
Proof.
  split_and!.
  - apply collect_hits_NoDup.
  - apply collect_hits_sublist.
  - intros pre h post -> Hfirst. now apply collect_hits_first.
  - apply collect_hits_origin.
Qed.

(** Two hits of the same text, the second with the higher score: the first
    one is the candidate. *)
Lemma collect_hits_first_occurrence_witness :
  candidate_of_hit "english" (plain_hit "A" 0.4)
    ∈ collect_hits "english"
        [plain_hit "A" 0.4; plain_hit "B" 0.3; plain_hit "A" 0.9]
  /\ map doc_score
       (collect_hits "english"
          [plain_hit "A" 0.4; plain_hit "B" 0.3; plain_hit "A" 0.9])
     = [0.4%float; 0.3%float].
Proof.
  split.
  - destruct (collect_hits_first_occurrence "english"
                [plain_hit "A" 0.4; plain_hit "B" 0.3;
                 plain_hit "A" 0.9]) as (_ & _ & Hfirst & _).
    apply (Hfirst [] (plain_hit "A" 0.4)
             [plain_hit "B" 0.3; plain_hit "A" 0.9]).
    + reflexivity.
    + apply not_elem_of_nil.
  - vm_compute. reflexivity.
Defined.

(** ** Language tag *)

(** C9.  The language tag of the candidate of a hit is the language the
    metadata of the hit supplies, and the language of the query when the
    metadata supplies none; every candidate built from the hits is the
    candidate of one of them. *)
Theorem candidate_language_default (language : string) (hits : list Hit) :
  (forall hit,
     doc_language (candidate_of_hit language hit)
     = match hit_language hit with
       | Some supplied => supplied
       | None => language
       end)
  /\ Forall (fun c => exists h, h ∈ hits /\ c = candidate_of_hit language h
                      /\ doc_language c = match hit_language h with
                                          | Some supplied => supplied
                                          | None => language
                                          end)
            (collect_hits language hits).
Proof.
  assert (Hone : forall hit,
    doc_language (candidate_of_hit language hit)
    = match hit_language hit with Some supplied => supplied | None => language end).
  { intros hit. unfold candidate_of_hit, hit_language. simpl.
    now destruct (payload_metadata (hit_payload hit) ≫= meta_language). }
  split; [exact Hone|].
  apply Forall_forall.
  intros c (pre & h & post & -> & -> & _)%collect_hits_origin.
  exists h. split_and!; [|done|apply Hone].
  apply elem_of_app. right. apply list_elem_of_here.
Qed.

(** ** Embedding failure *)

(** C5.  When the embedding endpoint raises, [search_documents] raises the
    same exception; its only call is that one call to the endpoint: no second
    attempt, no vector search, no lexical scoring, no fusion, and no list is
    returned. *)
Theorem search_documents_embedding_failure {W} (sv : Services W)
    (query language : string) (s : State W) (e : exn) (w' : W) :
  ollama_embeddings sv "bge-m3" query (world s) = (Raise e, w') ->
  search_documents sv query language s
  = (Raise e, mkState w' (trace s ++ [EvEmbeddings "bge-m3" query])).
Proof.
  intros Hcall. apply search_documents_embedding_raise.
  now apply generate_embedding_raise.
Qed.

Lemma search_documents_embedding_failure_witness :
  search_documents
    (fixed_services (Raise (ServiceError "connection refused")) (Ok true)
                    (Ok [plain_hit "A" 0.9]) (fun t => Ok [t])
                    (Ok tt) (Ok [0.1%float]))
    "query" "english" start
  = (Raise (ServiceError "connection refused"),
     mkState tt [EvEmbeddings "bge-m3" "query"]).
Proof.
  apply (search_documents_embedding_failure
           (fixed_services (Raise (ServiceError "connection refused")) (Ok true)
                           (Ok [plain_hit "A" 0.9]) (fun t => Ok [t])
                           (Ok tt) (Ok [0.1%float]))
           "query" "english" start (ServiceError "connection refused") tt).
  reflexivity.
Defined.

(** ** No candidates *)

Lemma lexical_not_fusion (evs : list Event) :
  forallb is_lexical_event evs = true ->
  forallb (fun ev => negb (is_fusion_event ev)) evs = true.
Proof.
  induction evs as [|ev evs IH]; simpl; [done|].
  intros [Hev Hevs]%andb_true_iff. rewrite IH by done.
  now destruct ev.
Qed.

(** C8.  When the vector search yields no candidate, [search_documents]
    returns the empty list, and its calls are the embedding, the existence
    check and the search (with the two messages printed): no call of the
    lexical-scoring stage and no call of [sorted]. *)
Theorem search_documents_no_candidates {W} (sv : Services W)
    (query language : string) (s s1 : State W) (v : list Q) (w2 w3 : W)
    (hits : list Hit) :
  generate_embedding sv query language s = (Ok v, s1) ->
  collection_exists sv (collection_of language) (world s1) = (Ok true, w2) ->
  client_search sv (collection_of language) v 20 w2 = (Ok hits, w3) ->
  collect_hits language hits = [] ->
  exists s' evs,
    search_documents sv query language s = (Ok [], s')
    /\ trace s' = trace s ++ evs
    /\ evs = [EvEmbeddings "bge-m3" query;
              EvCollectionExists (collection_of language);
              EvPrint (MsgSearching query (collection_of language));
              EvSearch (collection_of language) v 20;
              EvPrint (MsgRetrieved 0)]
    /\ forallb (fun ev => negb (is_lexical_event ev || is_fusion_event ev)) evs
       = true.
Proof.
  intros He Hc Hs Hnil.
  rewrite (search_documents_hits sv _ _ _ _ _ _ _ _ He Hc Hs), Hnil.
  eexists. eexists. split; [reflexivity|]. split_and!; [|reflexivity|reflexivity].
  simpl. rewrite (generate_embedding_trace sv _ _ _ _ _ He).
  now rewrite <- app_assoc.
Qed.

Lemma search_documents_no_candidates_witness :
  exists s',
    search_documents
      (fixed_services (Ok [1 # 2]) (Ok true) (Ok []) (fun t => Ok [t])
                      (Ok tt) (Ok []))
      "query" "english" start = (Ok [], s').
Proof.
  edestruct (search_documents_no_candidates
               (fixed_services (Ok [1 # 2]) (Ok true) (Ok []) (fun t => Ok [t])
                               (Ok tt) (Ok []))
               "query" "english" start) as (s' & evs & Hrun & _).
  - vm_compute. reflexivity.
  - reflexivity.
  - reflexivity.
  - reflexivity.
  - exists s'. exact Hrun.
Defined.

(** ** Failure of the lexical scoring *)

(** The run of [search_documents] when the calls of the lexical-scoring
    stage raise. *)
Lemma search_documents_lexical_raise {W} (sv : Services W)
    (query language : string) (s s1 s4 : State W) (v : list Q) (w2 w3 : W)
    (hits : list Hit) (e : exn) :
  generate_embedding sv query language s = (Ok v, s1) ->
  collection_exists sv (collection_of language) (world s1) = (Ok true, w2) ->
  client_search sv (collection_of language) v 20 w2 = (Ok hits, w3) ->
  lexical_scores sv query language (collect_hits language hits)
    (searched language query v s1 w3 (length (collect_hits language hits)))
  = (Raise e, s4) ->
  exists s' evs,
    search_documents sv query language s = (Ok (collect_hits language hits), s')
    /\ trace s' = trace s ++ evs
    /\ forallb (fun ev => negb (is_fusion_event ev)) evs = true.
Proof.
  intros He Hc Hs Hl.
  rewrite (search_documents_hits sv _ _ _ _ _ _ _ _ He Hc Hs).
  pose proof (generate_embedding_trace sv _ _ _ _ _ He) as He'.
  destruct (collect_hits language hits) as [|doc docs] eqn:Hdocs.
  - eexists. eexists. split; [reflexivity|]. simpl. rewrite He', <- app_assoc.
    split; reflexivity.
  - rewrite (rerank_raise sv _ _ _ _ _ _ Hl).
    apply lexical_scores_trace in Hl as (evs & Hevs & Hlex).
    eexists. eexists. split; [reflexivity|]. simpl.
    rewrite Hevs. simpl. rewrite He', <- !app_assoc. split; [reflexivity|].
    simpl. rewrite forallb_app, (lexical_not_fusion evs Hlex). reflexivity.
Qed.

(** C10.  When the calls of the lexical-scoring stage (tokenizing, building
    the BM25 model, scoring the query) raise, [search_documents] returns the
    list built from the hits as it is: same candidates, same order, every
    field as built; [sorted] is not called. *)
Theorem search_documents_bm25_raise_keeps_candidates {W} (sv : Services W)
    (query language : string) (s s1 s4 : State W) (v : list Q) (w2 w3 : W)
    (hits : list Hit) (e : exn) :
  generate_embedding sv query language s = (Ok v, s1) ->
  collection_exists sv (collection_of language) (world s1) = (Ok true, w2) ->
  client_search sv (collection_of language) v 20 w2 = (Ok hits, w3) ->
  lexical_scores sv query language (collect_hits language hits)
    (searched language query v s1 w3 (length (collect_hits language hits)))
  = (Raise e, s4) ->
  exists s' evs,
    search_documents sv query language s = (Ok (collect_hits language hits), s')
    /\ trace s' = trace s ++ evs
    /\ forallb (fun ev => negb (is_fusion_event ev)) evs = true.
Proof. apply search_documents_lexical_raise. Qed.

Lemma search_documents_bm25_raise_keeps_candidates_witness :
  exists s',
    search_documents
      (fixed_services (Ok [1 # 2]) (Ok true)
         (Ok [plain_hit "A" 0.4; plain_hit "B" 0.9])
         (fun t => Ok [t]) (Raise (ServiceError "division by zero")) (Ok []))
      "query" "english" start
    = (Ok [candidate_of_hit "english" (plain_hit "A" 0.4);
           candidate_of_hit "english" (plain_hit "B" 0.9)], s').
Proof.
  edestruct (search_documents_bm25_raise_keeps_candidates
               (fixed_services (Ok [1 # 2]) (Ok true)
                  (Ok [plain_hit "A" 0.4; plain_hit "B" 0.9])
                  (fun t => Ok [t]) (Raise (ServiceError "division by zero"))
                  (Ok []))
               "query" "english" start) as (s' & evs & Hrun & _).
  - vm_compute. reflexivity.
  - reflexivity.
  - reflexivity.
  - vm_compute. reflexivity.
  - exists s'. exact Hrun.
Defined.

(** C6, as stated, does not hold: with a BM25 model that cannot be built, the
    candidate comes back without any ["bm25_score"], not with the score 0. *)
Lemma bm25_failure_score_absent :
  fst (search_documents
         (fixed_services (Ok [1 # 2]) (Ok true) (Ok [plain_hit "A" 0.9])
            (fun t => Ok [t]) (Raise (ServiceError "division by zero")) (Ok []))
         "query" "english" start)
  = Ok [candidate_of_hit "english" (plain_hit "A" 0.9)]
  /\ doc_bm25_score (candidate_of_hit "english" (plain_hit "A" 0.9)) = None
  /\ ~ Forall (fun c => exists z, doc_bm25_score c = Some z /\ (z =? 0)%float = true)
         [candidate_of_hit "english" (plain_hit "A" 0.9)].
Proof.
  split_and!.
  - vm_compute. reflexivity.
  - reflexivity.
  - intros Hall. apply Forall_cons in Hall as [(z & Hz & _) _]. discriminate Hz.
Qed.

(** C6, amended.  When the calls of the lexical-scoring stage raise,
    [search_documents] still returns the list built from the hits, and no
    returned candidate has a ["bm25_score"]: the key is absent, it is not 0. *)
Theorem search_documents_bm25_raise_unscored {W} (sv : Services W)
    (query language : string) (s s1 s4 : State W) (v : list Q) (w2 w3 : W)
    (hits : list Hit) (e : exn) :
  generate_embedding sv query language s = (Ok v, s1) ->
  collection_exists sv (collection_of language) (world s1) = (Ok true, w2) ->
  client_search sv (collection_of language) v 20 w2 = (Ok hits, w3) ->
  lexical_scores sv query language (collect_hits language hits)
    (searched language query v s1 w3 (length (collect_hits language hits)))
  = (Raise e, s4) ->
  exists out s',
    search_documents sv query language s = (Ok out, s')
    /\ out = collect_hits language hits
    /\ Forall (fun c => doc_bm25_score c = None) out.
Proof.
  intros He Hc Hs Hl.
  destruct (search_documents_lexical_raise sv _ _ _ _ _ _ _ _ _ _ He Hc Hs Hl)
    as (s' & evs & Hrun & _).
  exists (collect_hits language hits), s'.
  split_and!; [done..|]. apply collect_hits_unscored.
Qed.

Lemma search_documents_bm25_raise_unscored_witness :
  exists out s',
    search_documents
      (fixed_services (Ok [1 # 2]) (Ok true) (Ok [plain_hit "A" 0.9])
         (fun t => Ok [t]) (Raise (ServiceError "division by zero")) (Ok []))
      "query" "english" start = (Ok out, s')
    /\ out = [candidate_of_hit "english" (plain_hit "A" 0.9)]
    /\ Forall (fun c => doc_bm25_score c = None) out.
Proof.
  eapply (search_documents_bm25_raise_unscored
            (fixed_services (Ok [1 # 2]) (Ok true) (Ok [plain_hit "A" 0.9])
               (fun t => Ok [t]) (Raise (ServiceError "division by zero"))
               (Ok []))
            "query" "english" start _ _ _ _ _ [plain_hit "A" 0.9]).
  - vm_compute. reflexivity.
  - reflexivity.
  - reflexivity.
  - vm_compute. reflexivity.
Defined.

(** ** Missing collection, failing search *)

(** The two failures of the vector store that [search_documents] turns into an
    empty list: the existence check answers that the collection does not
    exist, or it answers that the collection exists and the search raises. *)
Lemma search_documents_store_unavailable {W} (sv : Services W)
    (query language : string) (s s1 : State W) (v : list Q) (w2 : W) :
  generate_embedding sv query language s = (Ok v, s1) ->
  collection_exists sv (collection_of language) (world s1) = (Ok false, w2)
  \/ (exists w e,
        collection_exists sv (collection_of language) (world s1) = (Ok true, w)
        /\ client_search sv (collection_of language) v 20 w = (Raise e, w2)) ->
  exists s', search_documents sv query language s = (Ok [], s') /\ world s' = w2.
Proof.
  intros He [Hc | (w & e & Hc & Hs)].
  - rewrite (search_documents_not_found sv _ _ _ _ _ _ He Hc). now eexists.
  - rewrite (search_documents_search_raise sv _ _ _ _ _ _ _ _ He Hc Hs).
    now eexists.
Qed.

(** C4, on the input where the code departs from it.  The embedding is
    there and the vector store cannot be reached.  When the error comes from
    [client.search], inside the [try], the result is the empty list, as the
    comment of the handler says ("Return an empty list if retrieval fails").
    But [client.collection_exists] is called before the [try]: the same error
    raised there leaves [search_documents], and no list is returned. *)
Theorem search_documents_store_unreachable :
  search_documents
    (fixed_services (Ok [1 # 2]) (Ok true)
       (Raise (ServiceError "connection refused")) (fun t => Ok [t])
       (Ok tt) (Ok []))
    "query" "english" start
  = (Ok [],
     mkState tt
       [EvEmbeddings "bge-m3" "query"; EvCollectionExists "rag_docs_en";
        EvPrint (MsgSearching "query" "rag_docs_en");
        EvSearch "rag_docs_en" ([1 # 2] ++ replicate 1023 0%Q) 20;
        EvPrint (MsgVectorSearchError (ServiceError "connection refused"))])
  /\ search_documents
       (fixed_services (Ok [1 # 2]) (Raise (ServiceError "connection refused"))
          (Raise (ServiceError "connection refused")) (fun t => Ok [t])
          (Ok tt) (Ok []))
       "query" "english" start
     = (Raise (ServiceError "connection refused"),
        mkState tt
          [EvEmbeddings "bge-m3" "query"; EvCollectionExists "rag_docs_en"]).
Proof. split; vm_compute; reflexivity. Qed.

(** ** Fusion and final order *)

Lemma scored_fused_key w docs scores :
  Forall (fun c => exists b, doc_bm25_score c = Some b
                   /\ fused_key w c = Ok (b * w + doc_score c)%float)
         (scored docs scores).
Proof.
  revert scores. induction docs as [|doc docs IH]; intros [|sc scores];
    try constructor.
  - exists sc. split; reflexivity.
  - apply IH.
Qed.

(** The scenario of the specification, on the lists: three hits of texts A,
    B, C with dense scores 0.9, 0.85, 0.4 and lexical scores 0.1, 0.5, 0.05.
    In binary64 the fused scores are 0.9500000000000001, 1.1 and
    0.42500000000000004: the 0.95, 1.10 and 0.425 of the specification, up to
    the rounding of the additions. *)
Lemma scenario_fused language hits keyed :
  map (fun h => (hit_text h, hit_score h)) hits
  = [("A", 0.9%float); ("B", 0.85%float); ("C", 0.4%float)] ->
  keys_of (fused_key 0.5)
    (scored (collect_hits language hits) [0.1%float; 0.5%float; 0.05%float])
  = Ok keyed ->
  map (fused_key 0.5)
    (scored (collect_hits language hits) [0.1%float; 0.5%float; 0.05%float])
  = [Ok 0.9500000000000001%float; Ok 1.1%float; Ok 0.42500000000000004%float]
  /\ Forall2 (fun c d => exists k, fused_key 0.5 c = Ok k
                         /\ (abs (k - d) <? 1e-15)%float = true)
       (scored (collect_hits language hits) [0.1%float; 0.5%float; 0.05%float])
       [0.95%float; 1.10%float; 0.425%float]
  /\ map doc_text (sorted keyed true) = ["B"; "A"; "C"].
Proof.
  intros Hhits.
  destruct hits as [|[[tA mA] sA] [|[[tB mB] sB] [|[[tC mC] sC] [|]]]];
    try discriminate Hhits.
  unfold hit_text in Hhits. simpl in Hhits.
  injection Hhits as HtA -> HtB -> HtC ->.
  destruct tA as [tA|], tB as [tB|], tC as [tC|]; simpl in *;
    try discriminate. subst tA tB tC.
  vm_compute. intros [= <-]. split_and!; [reflexivity| |reflexivity].
  repeat constructor; eexists; (split; [reflexivity | reflexivity]).
Qed.

(** C1.  For english and arabic, when every candidate of the deduplicated
    list gets a lexical score and the fused keys are numbers, [search_documents]
    returns these candidates with their scores, in descending order of
    [bm25_score * weight + score] as binary64 computes and compares it, with
    weight 0.5 for english and 1.2 for arabic; candidates of equal key keep
    the order of the deduplicated list.  In the scenario of the specification
    the fused scores are 0.95, 1.10 and 0.425 up to rounding and the texts
    come back in the order B, A, C. *)
Theorem search_documents_fused_order {W} (sv : Services W)
    (query language : string) (s s1 s4 : State W) (v : list Q) (w2 w3 : W)
    (hits : list Hit) (scores : list float) :
  language = "english" \/ language = "arabic" ->
  generate_embedding sv query language s = (Ok v, s1) ->
  collection_exists sv (collection_of language) (world s1) = (Ok true, w2) ->
  client_search sv (collection_of language) v 20 w2 = (Ok hits, w3) ->
  lexical_scores sv query language (collect_hits language hits)
    (searched language query v s1 w3 (length (collect_hits language hits)))
  = (Ok scores, s4) ->
  length scores = length (collect_hits language hits) ->
  Forall (fun c => forall k, fused_key (weight_of language) c = Ok k ->
                             is_number k)
    (scored (collect_hits language hits) scores) ->
  exists out s',
    search_documents sv query language s = (Ok out, s')
    /\ (language = "english" /\ weight_of language = 0.5%float
        \/ language = "arabic" /\ weight_of language = 1.2%float)
    /\ out ≡ₚ scored (collect_hits language hits) scores
    /\ Forall (fun c => exists b,
                 doc_bm25_score c = Some b
                 /\ fused_key (weight_of language) c
                    = Ok (b * weight_of language + doc_score c)%float) out
    /\ StronglySorted (key_geq (fused_key (weight_of language))) out
    /\ (forall k,
          List.filter (key_is (fused_key (weight_of language)) k) out
          = List.filter (key_is (fused_key (weight_of language)) k)
              (scored (collect_hits language hits) scores))
    /\ (language = "english" ->
        map (fun h => (hit_text h, hit_score h)) hits
        = [("A", 0.9%float); ("B", 0.85%float); ("C", 0.4%float)] ->
        scores = [0.1%float; 0.5%float; 0.05%float] ->
        map (fused_key 0.5) (scored (collect_hits language hits) scores)
        = [Ok 0.9500000000000001%float; Ok 1.1%float;
           Ok 0.42500000000000004%float]
        /\ Forall2 (fun c d => exists k, fused_key 0.5 c = Ok k
                               /\ (abs (k - d) <? 1e-15)%float = true)
             (scored (collect_hits language hits) scores)
             [0.95%float; 1.10%float; 0.425%float]
        /\ map doc_text out = ["B"; "A"; "C"]).
Proof.
  intros Hlang He Hc Hs Hl Hlen Hnum.
  assert (Hw : language = "english" /\ weight_of language = 0.5%float
               \/ language = "arabic" /\ weight_of language = 1.2%float)
    by (destruct Hlang as [-> | ->]; [left | right]; split; reflexivity).
  rewrite (search_documents_hits sv _ _ _ _ _ _ _ _ He Hc Hs).
  destruct (collect_hits language hits) as [|doc docs] eqn:Hdocs.
  - exists [], (searched language query v s1 w3 0).
    split_and!; [done|done|done|constructor|constructor|done|].
    intros _ Hhits _. apply collect_hits_empty in Hdocs. now subst hits.
  - destruct (rerank_scored sv _ _ _ _ _ _ Hl) as (keyed & Hk & Hrun); [lia|].
    rewrite Hrun.
    destruct (sorted_reverse_rearranges _ _ _ Hk) as (Hperm & Hstable).
    pose proof (sorted_reverse_descending _ _ _ Hk Hnum) as Hsorted.
    eexists. eexists. split_and!; [reflexivity|done|done| |done|done|].
    + rewrite Hperm. apply scored_fused_key.
    + intros -> Hhits ->. rewrite <- Hdocs in Hk |- *.
      change (weight_of "english") with 0.5%float in Hk.
      apply (scenario_fused "english" hits keyed Hhits Hk).
Qed.

Lemma search_documents_fused_order_witness :
  exists out s',
    search_documents
      (fixed_services (Ok [1 # 2]) (Ok true)
         (Ok [plain_hit "A" 0.9; plain_hit "B" 0.85; plain_hit "C" 0.4])
         (fun t => Ok [t]) (Ok tt) (Ok [0.1%float; 0.5%float; 0.05%float]))
      "benefits of AI in healthcare" "english" start = (Ok out, s')
    /\ map doc_text out = ["B"; "A"; "C"].
Proof.
  edestruct (fun s1 s4 v w2 w3 =>
               search_documents_fused_order
                 (fixed_services (Ok [1 # 2]) (Ok true)
                    (Ok [plain_hit "A" 0.9; plain_hit "B" 0.85;
                         plain_hit "C" 0.4])
                    (fun t => Ok [t]) (Ok tt)
                    (Ok [0.1%float; 0.5%float; 0.05%float]))
                 "benefits of AI in healthcare" "english" start
                 s1 s4 v w2 w3
                 [plain_hit "A" 0.9; plain_hit "B" 0.85; plain_hit "C" 0.4]
                 [0.1%float; 0.5%float; 0.05%float])
    as (out & s' & Hrun & _ & _ & _ & _ & _ & Hscenario).
  - left. reflexivity.
  - vm_compute. reflexivity.
  - reflexivity.
  - reflexivity.
  - vm_compute. reflexivity.
  - reflexivity.
  - repeat constructor; intros k [= <-]; vm_compute; reflexivity.
  - exists out, s'. split; [exact Hrun|].
    apply Hscenario; reflexivity.
Defined.

(** Equal fused keys: A and B (both 0.5) stay in the order of the hits, behind
    C (0.9). *)
Example search_documents_ties :
  fst (search_documents
         (fixed_services (Ok [1 # 2]) (Ok true)
            (Ok [plain_hit "A" 0.5; plain_hit "B" 0.3; plain_hit "C" 0.9])
            (fun t => Ok [t]) (Ok tt) (Ok [0%float; 0.4%float; 0%float]))
         "query" "english" start)
  = Ok (scored [candidate_of_hit "english" (plain_hit "C" 0.9);
                candidate_of_hit "english" (plain_hit "A" 0.5);
                candidate_of_hit "english" (plain_hit "B" 0.3)]
               [0%float; 0%float; 0.4%float]).
Proof. vm_compute. reflexivity. Qed.

(** Rounding decides the order.  For arabic, A (score 0.9, lexical 0.4) and B
    (score 0.3, lexical 0.9) both have the fused score 1.38 in exact
    arithmetic; in binary64 A gets 1.38 and B 1.3800000000000001, and B comes
    first. *)
Example search_documents_rounding :
  fused_key 1.2 (set_bm25_score (candidate_of_hit "arabic" (plain_hit "A" 0.9)) 0.4)
  = Ok 1.38%float
  /\ fused_key 1.2 (set_bm25_score (candidate_of_hit "arabic" (plain_hit "B" 0.3)) 0.9)
     = Ok 1.3800000000000001%float
  /\ fst (search_documents
            (fixed_services (Ok [1 # 2]) (Ok true)
               (Ok [plain_hit "A" 0.9; plain_hit "B" 0.3])
               (fun t => Ok [t]) (Ok tt) (Ok [0.4%float; 0.9%float]))
            "query" "arabic" start)
     = Ok (scored [candidate_of_hit "arabic" (plain_hit "B" 0.3);
                   candidate_of_hit "arabic" (plain_hit "A" 0.9)]
                  [0.9%float; 0.4%float]).
Proof. split_and!; vm_compute; reflexivity. Qed.

(** ** Tokenization *)

Lemma tokenize_text_arabic {W} (sv : Services W) (text : string) (s : State W) :
  tokenize_text sv text "arabic" s
  = call (EvWordTokenize text) (word_tokenize sv text) s.
Proof. reflexivity. Qed.

Lemma tokenize_text_other {W} (sv : Services W) (text language : string)
    (s : State W) (words : list string) (w' : W) :
  language <> "arabic" ->
  word_tokenize sv text (world s) = (Ok words, w') ->
  tokenize_text sv text language s
  = (Ok (map (str_lower sv)
             (List.filter (fun word => negb (str_in word punctuation)) words)),
     mkState w' (trace s ++ [EvWordTokenize text])).
Proof.
  intros Hlang Hcall. unfold tokenize_text.
  destruct (String.eqb_spec language "arabic") as [->|_]; [done|].
  now rewrite run_bind, (run_call _ _ _ _ _ Hcall).
Qed.

Example punctuation_length : String.length punctuation = 32%nat.
Proof. reflexivity. Qed.

(** The tokens of one character that [tokenize_text] drops are the 32
    punctuation characters. *)
Lemma one_character_dropped (c : ascii) :
  str_in (String c EmptyString) punctuation = is_punctuation_char c.
Proof. reflexivity. Qed.

(** C7, on the input where the code departs from it.  NLTK splits
    ["Wait..."] into ["Wait"] and ["..."].  The token ["..."] is made of
    punctuation only, but it is not a substring of [string.punctuation], so
    the test [word not in string.punctuation] keeps it: the English tokens
    are ["wait"] and ["..."]. *)
Theorem tokenize_text_keeps_ellipsis :
  punctuation_only "..." = true
  /\ str_in "..." punctuation = false
  /\ tokenize_text
       (fixed_services (Ok []) (Ok true) (Ok [])
          (fun _ => Ok ["Wait"; "..."]) (Ok tt) (Ok []))
       "Wait..." "english" start
     = (Ok ["wait"; "..."], mkState tt [EvWordTokenize "Wait..."])
  /\ tokenize_text
       (fixed_services (Ok []) (Ok true) (Ok [])
          (fun _ => Ok ["Wait"; "..."]) (Ok tt) (Ok []))
       "Wait..." "arabic" start
     = (Ok ["Wait"; "..."], mkState tt [EvWordTokenize "Wait..."]).
Proof. split_and!; vm_compute; reflexivity. Qed.

(** ** Fewer scores than candidates *)

(** [BM25Okapi.get_scores] returns one score per document of the corpus, so
    the loop over [retrieved_docs] finds a score at every index.  Were the
    array shorter, [bm25_scores[idx]] would raise [IndexError] part-way: the
    dicts assigned so far keep their score, and the list is returned in the
    order of the hits. *)
Example rerank_short_scores :
  fst (search_documents
         (fixed_services (Ok [1 # 2]) (Ok true)
            (Ok [plain_hit "A" 0.4; plain_hit "B" 0.9])
            (fun t => Ok [t]) (Ok tt) (Ok [0.3%float]))
         "query" "english" start)
  = Ok [set_bm25_score (candidate_of_hit "english" (plain_hit "A" 0.4)) 0.3;
        candidate_of_hit "english" (plain_hit "B" 0.9)].
Proof. vm_compute. reflexivity. Qed.

(** * Further properties *)

(** ** [generate_embedding] and [search_documents]: what the claims leave out *)

Lemma EMBEDDING_SIZES_other (language : string) :
  language <> "english" -> language <> "arabic" ->
  EMBEDDING_SIZES !! language = None.
Proof.
  intros Hen Har. unfold EMBEDDING_SIZES.
  rewrite lookup_insert_ne by done. rewrite lookup_insert_ne by done.
  apply lookup_empty.
Qed.

(** X1.  For a language other than english and arabic the endpoint is still
    called, and then the size lookup raises [KeyError(language)]:
    [generate_embedding] and [search_documents] raise it, and nothing else is
    called. *)
Theorem search_documents_unknown_language {W} (sv : Services W)
    (query language : string) (s : State W) (raw : list Q) (w' : W) :
  language <> "english" -> language <> "arabic" ->
  ollama_embeddings sv "bge-m3" query (world s) = (Ok raw, w') ->
  generate_embedding sv query language s
  = (Raise (KeyError language),
     mkState w' (trace s ++ [EvEmbeddings "bge-m3" query]))
  /\ search_documents sv query language s
     = (Raise (KeyError language),
        mkState w' (trace s ++ [EvEmbeddings "bge-m3" query])).
Proof.
  intros Hen Har Hcall.
  assert (Hgen : generate_embedding sv query language s
                 = (Raise (KeyError language),
                    mkState w' (trace s ++ [EvEmbeddings "bge-m3" query]))).
  { unfold generate_embedding.
    replace (if String.eqb language "arabic" then "bge-m3" else "bge-m3")
      with "bge-m3" by now destruct (String.eqb language "arabic").
    rewrite run_bind, (run_call _ _ _ _ _ Hcall), run_bind.
    unfold dict_get. now rewrite EMBEDDING_SIZES_other. }
  split; [exact Hgen|]. now apply search_documents_embedding_raise.
Qed.

Lemma search_documents_unknown_language_witness :
  fst (search_documents
         (fixed_services (Ok [1 # 2]) (Ok true) (Ok [plain_hit "A" 0.9])
            (fun t => Ok [t]) (Ok tt) (Ok [0.1%float]))
         "query" "french" start)
  = Raise (KeyError "french").
Proof.
  destruct (search_documents_unknown_language
              (fixed_services (Ok [1 # 2]) (Ok true) (Ok [plain_hit "A" 0.9])
                 (fun t => Ok [t]) (Ok tt) (Ok [0.1%float]))
              "query" "french" start [1 # 2] tt) as [_ Hrun].
  - discriminate.
  - discriminate.
  - reflexivity.
  - rewrite Hrun. reflexivity.
Defined.

(** X2.  The two supported languages get the same embedding: the same model
    is called and the same size is enforced. *)
Theorem generate_embedding_same_for_both {W} (sv : Services W)
    (text : string) (s : State W) :
  generate_embedding sv text "english" s = generate_embedding sv text "arabic" s.
Proof.
  unfold generate_embedding. simpl String.eqb. cbv iota.
  rewrite !run_bind.
  destruct (call _ _ s) as [[raw|e] s0]; [|reflexivity].
  rewrite !run_bind. unfold dict_get.
  replace (EMBEDDING_SIZES !! "english") with (Some 1024%nat)
    by (vm_compute; reflexivity).
  replace (EMBEDDING_SIZES !! "arabic") with (Some 1024%nat)
    by (vm_compute; reflexivity).
  reflexivity.
Qed.

(** X3.  An exception of the existence check is not caught: it leaves
    [search_documents] as it is, after the embedding and before any search. *)
Theorem search_documents_existence_check_raises {W} (sv : Services W)
    (query language : string) (s s1 : State W) (v : list Q) (e : exn) (w2 : W) :
  generate_embedding sv query language s = (Ok v, s1) ->
  collection_exists sv (collection_of language) (world s1) = (Raise e, w2) ->
  search_documents sv query language s
  = (Raise e,
     mkState w2 (trace s1 ++ [EvCollectionExists (collection_of language)])).
Proof.
  intros He Hc. unfold search_documents.
  now rewrite run_bind, He, run_bind, (run_call _ _ _ _ _ Hc).
Qed.

Lemma search_documents_existence_check_raises_witness :
  search_documents
    (fixed_services (Ok []) (Raise (ServiceError "connection refused"))
       (Ok [plain_hit "A" 0.9]) (fun t => Ok [t]) (Ok tt) (Ok [0.1%float]))
    "query" "arabic" start
  = (Raise (ServiceError "connection refused"),
     mkState tt [EvEmbeddings "bge-m3" "query"; EvCollectionExists "rag_docs_ar"]).
Proof.
  apply (search_documents_existence_check_raises
           (fixed_services (Ok []) (Raise (ServiceError "connection refused"))
              (Ok [plain_hit "A" 0.9]) (fun t => Ok [t]) (Ok tt) (Ok [0.1%float]))
           "query" "arabic" start
           (mkState tt [EvEmbeddings "bge-m3" "query"])
           (replicate 1024 0%Q) (ServiceError "connection refused") tt).
  - vm_compute. reflexivity.
  - reflexivity.
Defined.

(** ** What re-ranking can and cannot change *)

Lemma same_but_score_refl c : same_but_score c c.
Proof. now repeat split. Qed.

Lemma same_but_score_set c s : same_but_score (set_bm25_score c s) c.
Proof. now repeat split. Qed.

Lemma assign_bm25_scores_same docs scores idx :
  Forall2 same_but_score (fst (assign_bm25_scores docs scores idx)) docs.
Proof.
  revert idx. induction docs as [|doc docs IH]; intros idx; simpl.
  - constructor.
  - destruct (scores !! idx) as [sc|]; simpl.
    + specialize (IH (S idx)).
      destruct (assign_bm25_scores docs scores (S idx)) as [rest' err]. simpl in *.
      constructor; [apply same_but_score_set | exact IH].
    + apply Forall2_same_length_lookup. split; [done|].
      intros i c c' Hc Hc'. rewrite Hc in Hc'. injection Hc' as <-.
      apply same_but_score_refl.
Qed.

Lemma same_but_score_texts docs' docs :
  Forall2 same_but_score docs' docs -> map doc_text docs' = map doc_text docs.
Proof.
  induction 1 as [|c c0 l l0 Hc Hl IH]; simpl; [done|].
  destruct Hc as [-> _]. now rewrite IH.
Qed.

(** The second [try] block never raises, and returns the candidates it is
    given, rearranged, with no key changed but ["bm25_score"]. *)
Lemma rerank_returns {W} (sv : Services W) (query language : string)
    (docs : list Candidate) (s : State W) :
  exists out s' docs',
    rerank sv query language docs s = (Ok out, s')
    /\ out ≡ₚ docs' /\ Forall2 same_but_score docs' docs.
Proof.
  unfold rerank. rewrite run_bind. unfold try_except. rewrite run_bind.
  destruct (lexical_scores sv query language docs s) as [[scores|e] s1].
  - unfold mret at 1, M_ret at 1, ret at 1.
    pose proof (assign_bm25_scores_same docs scores 0) as Hsame.
    destruct (assign_bm25_scores docs scores 0) as [docs' [e|]]; simpl in Hsame.
    + eexists. eexists. exists docs'. split; [reflexivity|]. split; done.
    + rewrite run_bind. simpl.
      destruct (keys_of (fused_key (weight_of language)) docs')
        as [keyed|e] eqn:Hk.
      * destruct (sorted_reverse_rearranges _ _ _ Hk) as (Hperm & _).
        eexists. eexists. exists docs'. split; [reflexivity|]. split; done.
      * eexists. eexists. exists docs'. split; [reflexivity|]. split; done.
  - eexists. eexists. exists docs. split; [reflexivity|]. split; [done|].
    apply Forall2_same_length_lookup. split; [done|].
    intros i c c' Hc Hc'. rewrite Hc in Hc'. injection Hc' as <-.
    apply same_but_score_refl.
Qed.

(** X4.  Once the embedding is there and the existence check has answered,
    [search_documents] returns a list whatever the vector search, the
    tokenizer and the BM25 model do: only the embedding and the existence
    check can make it raise. *)
Theorem search_documents_raises_only_early {W} (sv : Services W)
    (query language : string) (s s1 : State W) (v : list Q)
    (found : bool) (w2 : W) :
  generate_embedding sv query language s = (Ok v, s1) ->
  collection_exists sv (collection_of language) (world s1) = (Ok found, w2) ->
  exists out s', search_documents sv query language s = (Ok out, s').
Proof.
  intros He Hc. destruct found.
  - destruct (client_search sv (collection_of language) v 20 w2)
      as [[hits|e] w3] eqn:Hs.
    + rewrite (search_documents_hits sv _ _ _ _ _ _ _ _ He Hc Hs).
      destruct (collect_hits language hits) as [|doc docs]; [do 2 eexists; reflexivity|].
      destruct (rerank_returns sv query language (doc :: docs)
                  (searched language query v s1 w3 (length (doc :: docs))))
        as (out & s' & _ & Hrun & _).
      now exists out, s'.
    + rewrite (search_documents_search_raise sv _ _ _ _ _ _ _ _ He Hc Hs).
      do 2 eexists; reflexivity.
  - rewrite (search_documents_not_found sv _ _ _ _ _ _ He Hc). do 2 eexists; reflexivity.
Qed.

Lemma search_documents_raises_only_early_witness :
  exists out s',
    search_documents
      (fixed_services (Ok [1 # 2]) (Ok true)
         (Ok [plain_hit "A" 0.9]) (fun t => Raise (ServiceError "punkt missing"))
         (Raise (ServiceError "division by zero")) (Raise IndexError))
      "query" "english" start = (Ok out, s').
Proof.
  eapply (search_documents_raises_only_early
            (fixed_services (Ok [1 # 2]) (Ok true)
               (Ok [plain_hit "A" 0.9])
               (fun t => Raise (ServiceError "punkt missing"))
               (Raise (ServiceError "division by zero")) (Raise IndexError))
            "query" "english" start).
  - vm_compute. reflexivity.
  - reflexivity.
Defined.

(** X5.  Whatever the lexical stage does, the list [search_documents]
    returns after a vector search is a rearrangement of the deduplicated
    candidates in which no key but ["bm25_score"] has changed: the texts stay
    pairwise different and there are at most as many results as hits. *)
Theorem search_documents_keeps_candidates {W} (sv : Services W)
    (query language : string) (s s1 : State W) (v : list Q) (w2 w3 : W)
    (hits : list Hit) :
  generate_embedding sv query language s = (Ok v, s1) ->
  collection_exists sv (collection_of language) (world s1) = (Ok true, w2) ->
  client_search sv (collection_of language) v 20 w2 = (Ok hits, w3) ->
  exists out s' docs',
    search_documents sv query language s = (Ok out, s')
    /\ out ≡ₚ docs'
    /\ Forall2 same_but_score docs' (collect_hits language hits)
    /\ NoDup (map doc_text out)
    /\ (length out <= length hits)%nat.
Proof.
  intros He Hc Hs.
  rewrite (search_documents_hits sv _ _ _ _ _ _ _ _ He Hc Hs).
  assert (Hfinish : forall out docs' : list Candidate,
    out ≡ₚ docs' -> Forall2 same_but_score docs' (collect_hits language hits) ->
    NoDup (map doc_text out) /\ (length out <= length hits)%nat).
  { intros out docs' Hperm Hsame. split.
    - rewrite Hperm, (same_but_score_texts _ _ Hsame).
      apply collect_hits_NoDup.
    - rewrite Hperm, (Forall2_length _ _ _ Hsame).
      pose proof (sublist_length _ _ (collect_hits_sublist language hits)) as Hl.
      now rewrite length_map in Hl. }
  destruct (collect_hits language hits) as [|doc docs] eqn:Hdocs.
  - exists [], (searched language query v s1 w3 0), [].
    split_and!; [done|done|constructor|constructor|simpl; lia].
  - destruct (rerank_returns sv query language (doc :: docs)
                (searched language query v s1 w3 (length (doc :: docs))))
      as (out & s' & docs' & Hrun & Hperm & Hsame).
    exists out, s', docs'. destruct (Hfinish out docs' Hperm Hsame).
    split_and!; done.
Qed.

Lemma search_documents_keeps_candidates_witness :
  exists out s' docs',
    search_documents
      (fixed_services (Ok [1 # 2]) (Ok true)
         (Ok [plain_hit "A" 0.4; plain_hit "B" 0.9; plain_hit "A" 0.8])
         (fun t => Ok [t]) (Ok tt) (Ok [0.3%float]))
      "query" "english" start = (Ok out, s')
    /\ out ≡ₚ docs'
    /\ Forall2 same_but_score docs'
         (collect_hits "english"
            [plain_hit "A" 0.4; plain_hit "B" 0.9; plain_hit "A" 0.8])
    /\ NoDup (map doc_text out)
    /\ (length out <= 3)%nat.
Proof.
  eapply (search_documents_keeps_candidates
            (fixed_services (Ok [1 # 2]) (Ok true)
               (Ok [plain_hit "A" 0.4; plain_hit "B" 0.9; plain_hit "A" 0.8])
               (fun t => Ok [t]) (Ok tt) (Ok [0.3%float]))
            "query" "english" start).
  - vm_compute. reflexivity.
  - reflexivity.
  - reflexivity.
Defined.

(** ** Fewer scores than candidates, in general *)

Lemma assign_bm25_scores_short docs scores idx :
  (idx <= length scores)%nat ->
  (length scores < idx + length docs)%nat ->
  assign_bm25_scores docs scores idx
  = (scored (take (length scores - idx) docs) (drop idx scores)
       ++ drop (length scores - idx) docs,
     Some IndexError).
Proof.
  revert idx. induction docs as [|doc docs IH]; simpl; intros idx Hle Hlt.
  - lia.
  - destruct (scores !! idx) as [sc|] eqn:Hs.
    + pose proof (lookup_lt_Some _ _ _ Hs) as Hidx.
      rewrite (IH (S idx)) by lia.
      replace (length scores - idx)%nat with (S (length scores - S idx)) by lia.
      erewrite (drop_S scores sc idx) by done. reflexivity.
    + apply lookup_ge_None in Hs.
      replace (length scores - idx)%nat with 0%nat by lia.
      reflexivity.
Qed.

(** X6.  If the BM25 model returns fewer scores than there are candidates,
    the assignment loop stops with [IndexError] at the first candidate
    without a score: the candidates come back in the order of the hits, the
    first ones with their score, the others without, and [sorted] is not
    reached. *)
Theorem search_documents_short_scores {W} (sv : Services W)
    (query language : string) (s s1 s4 : State W) (v : list Q) (w2 w3 : W)
    (hits : list Hit) (scores : list float) :
  generate_embedding sv query language s = (Ok v, s1) ->
  collection_exists sv (collection_of language) (world s1) = (Ok true, w2) ->
  client_search sv (collection_of language) v 20 w2 = (Ok hits, w3) ->
  lexical_scores sv query language (collect_hits language hits)
    (searched language query v s1 w3 (length (collect_hits language hits)))
  = (Ok scores, s4) ->
  (length scores < length (collect_hits language hits))%nat ->
  search_documents sv query language s
  = (Ok (scored (take (length scores) (collect_hits language hits)) scores
         ++ drop (length scores) (collect_hits language hits)),
     record s4 [EvPrint (MsgBM25Error IndexError)]).
Proof.
  intros He Hc Hs Hl Hlen.
  rewrite (search_documents_hits sv _ _ _ _ _ _ _ _ He Hc Hs).
  destruct (collect_hits language hits) as [|doc docs] eqn:Hdocs;
    [simpl in Hlen; lia|].
  unfold rerank. rewrite run_bind. unfold try_except. rewrite run_bind, Hl.
  unfold mret at 1, M_ret at 1, ret at 1.
  rewrite assign_bm25_scores_short by (simpl in *; lia).
  rewrite drop_0, Nat.sub_0_r. reflexivity.
Qed.

Lemma search_documents_short_scores_witness :
  fst (search_documents
         (fixed_services (Ok [1 # 2]) (Ok true)
            (Ok [plain_hit "A" 0.4; plain_hit "B" 0.9; plain_hit "C" 0.95])
            (fun t => Ok [t]) (Ok tt) (Ok [0.3%float]))
         "query" "english" start)
  = Ok [set_bm25_score (candidate_of_hit "english" (plain_hit "A" 0.4)) 0.3;
        candidate_of_hit "english" (plain_hit "B" 0.9);
        candidate_of_hit "english" (plain_hit "C" 0.95)].
Proof.
  erewrite (fun s1 s4 v w2 w3 =>
              search_documents_short_scores
                (fixed_services (Ok [1 # 2]) (Ok true)
                   (Ok [plain_hit "A" 0.4; plain_hit "B" 0.9;
                        plain_hit "C" 0.95])
                   (fun t => Ok [t]) (Ok tt) (Ok [0.3%float]))
                "query" "english" start s1 s4 v w2 w3
                [plain_hit "A" 0.4; plain_hit "B" 0.9; plain_hit "C" 0.95]
                [0.3%float]).
  - reflexivity.
  - vm_compute. reflexivity.
  - reflexivity.
  - reflexivity.
  - vm_compute. reflexivity.
  - vm_compute. lia.
Defined.

(** ** Deduplication: two edge cases *)

(** X7.  When no two hits share a text, every hit becomes a candidate, in
    the order of the hits. *)
Theorem collect_hits_distinct (language : string) (hits : list Hit) :
  NoDup (map hit_text hits) ->
  collect_hits language hits = map (candidate_of_hit language) hits.
Proof.
  induction hits as [|x hits IH] using rev_ind; intros Hnd; [done|].
  rewrite map_app in Hnd. simpl in Hnd.
  apply NoDup_app in Hnd as (Hnd & Hnew & _).
  rewrite collect_hits_snoc, map_app, IH by done. simpl.
  rewrite decide_False; [done|].
  intros Hin. apply (Hnew _ Hin). apply list_elem_of_here.
Qed.

Lemma collect_hits_distinct_witness :
  collect_hits "arabic" [plain_hit "A" 0.4; plain_hit "B" 0.9]
  = [candidate_of_hit "arabic" (plain_hit "A" 0.4);
     candidate_of_hit "arabic" (plain_hit "B" 0.9)].
Proof.
  apply (collect_hits_distinct "arabic" [plain_hit "A" 0.4; plain_hit "B" 0.9]).
  vm_compute. repeat constructor; set_unfold; intros; intuition discriminate.
Defined.

(** X8.  Hits that all have the text of the first one give one candidate,
    the first.  A hit without ["text"] has the text [""], so of several hits
    without text only the first is kept. *)
Theorem collect_hits_same_text (language : string) (h : Hit) (rest : list Hit) :
  Forall (fun h' => hit_text h' = hit_text h) rest ->
  collect_hits language (h :: rest) = [candidate_of_hit language h].
Proof.
  induction rest as [|x rest IH] using rev_ind; intros Hall; [done|].
  apply Forall_app in Hall as [Hrest Hx]. apply Forall_inv in Hx.
  simpl in Hx.
  change (h :: rest ++ [x]) with ((h :: rest) ++ [x]).
  rewrite collect_hits_snoc, IH by done.
  rewrite decide_True; [done|].
  simpl. rewrite Hx. apply list_elem_of_here.
Qed.

Lemma collect_hits_same_text_witness :
  collect_hits "english"
    [{| hit_payload := {| payload_text := None; payload_metadata := None |};
        hit_score := 0.2 |};
     {| hit_payload := {| payload_text := None; payload_metadata := None |};
        hit_score := 0.9 |};
     plain_hit "" 0.5]
  = [candidate_of_hit "english"
       {| hit_payload := {| payload_text := None; payload_metadata := None |};
          hit_score := 0.2 |}].
Proof.
  apply (collect_hits_same_text "english").
  repeat constructor.
Defined.

(** ** Tokenization never loses a word *)

Lemma str_in_cons needle a haystack :
  str_in needle haystack = true -> str_in needle (String a haystack) = true.
Proof. intros H. simpl. rewrite H. apply orb_true_r. Qed.

Lemma all_chars_impl (p q : ascii -> bool) s :
  (forall c, p c = true -> q c = true) ->
  all_chars p s = true -> all_chars q s = true.
Proof.
  intros Hpq. induction s as [|c s IH]; simpl; [done|].
  intros [Hc Hs]%andb_true_iff. now rewrite (Hpq c Hc), IH.
Qed.

Lemma prefix_chars word haystack :
  String.prefix word haystack = true ->
  all_chars (fun c => str_in (String c EmptyString) haystack) word = true.
Proof.
  revert haystack. induction word as [|a word IH]; intros [|b haystack];
    try done.
  cbn [String.prefix]. destruct (ascii_dec a b) as [->|]; [|done]. intros Hp.
  cbn [all_chars]. apply andb_true_iff. split.
  - cbn [str_in String.prefix]. destruct (ascii_dec b b); [|done].
    now destruct haystack.
  - apply (all_chars_impl (fun c => str_in (String c EmptyString) haystack));
      [intros c; apply str_in_cons | now apply IH].
Qed.

(** A substring of [haystack] is made of characters of [haystack]. *)
Lemma str_in_chars word haystack :
  str_in word haystack = true ->
  all_chars (fun c => str_in (String c EmptyString) haystack) word = true.
Proof.
  induction haystack as [|a haystack IH].
  - intros H. cbn [str_in] in H. rewrite orb_false_r in H.
    now apply prefix_chars.
  - intros H. cbn [str_in] in H. apply orb_true_iff in H as [Hp|Hin].
    + now apply prefix_chars.
    + apply (all_chars_impl (fun c => str_in (String c EmptyString) haystack));
        [intros c; apply str_in_cons | now apply IH].
Qed.

Lemma filter_sublist {A} (f : A -> bool) (l : list A) :
  sublist (List.filter f l) l.
Proof.
  induction l as [|x l IH]; simpl; [constructor|].
  destruct (f x); now constructor.
Qed.

Lemma filter_filter_impl {A} (f g : A -> bool) (l : list A) :
  (forall x, g x = true -> f x = true) ->
  List.filter g (List.filter f l) = List.filter g l.
Proof.
  intros Hgf. induction l as [|x l IH]; [done|]. cbn [List.filter].
  destruct (f x) eqn:Hf.
  - cbn [List.filter]. now rewrite IH.
  - rewrite IH. destruct (g x) eqn:Hg; [|done].
    rewrite (Hgf x Hg) in Hf. discriminate Hf.
Qed.

(** A word with a character that is not ASCII punctuation is no substring of
    [string.punctuation]. *)
Lemma word_not_in_punctuation word :
  negb (all_chars is_punctuation_char word) = true ->
  negb (str_in word punctuation) = true.
Proof.
  intros Hword. destruct (str_in word punctuation) eqn:Hsub; [|done].
  apply str_in_chars in Hsub. unfold is_punctuation_char in Hword.
  now rewrite Hsub in Hword.
Qed.

(** X9.  For every language but arabic, the tokens [tokenize_text] returns
    are the lower-cased forms of exactly the word tokens that are no
    substring of [string.punctuation], each as often as the tokenizer gave
    it and in the tokenizer's order.  The word tokens with a character that
    is not ASCII punctuation all stay, with their repetitions and their
    order: none of them is ever dropped. *)
Theorem tokenize_text_keeps_words {W} (sv : Services W)
    (text language : string) (s : State W) (words : list string) (w' : W) :
  language <> "arabic" ->
  word_tokenize sv text (world s) = (Ok words, w') ->
  exists kept,
    tokenize_text sv text language s
    = (Ok (map (str_lower sv) kept),
       mkState w' (trace s ++ [EvWordTokenize text]))
    /\ kept = List.filter (fun word => negb (str_in word punctuation)) words
    /\ sublist kept words
    /\ List.filter (fun word => negb (all_chars is_punctuation_char word)) kept
       = List.filter (fun word => negb (all_chars is_punctuation_char word))
           words
    /\ forall word,
         word ∈ words -> all_chars is_punctuation_char word = false ->
         word ∈ kept.
Proof.
  intros Hlang Hcall.
  exists (List.filter (fun word => negb (str_in word punctuation)) words).
  split_and!.
  - now apply tokenize_text_other.
  - reflexivity.
  - apply filter_sublist.
  - apply filter_filter_impl. intros word. apply word_not_in_punctuation.
  - intros word Hin Hword. apply list_elem_of_In, filter_In.
    split; [now apply list_elem_of_In|].
    apply word_not_in_punctuation. now rewrite Hword.
Qed.

Lemma tokenize_text_keeps_words_witness :
  exists kept,
    tokenize_text
      (fixed_services (Ok []) (Ok true) (Ok [])
         (fun _ => Ok ["AI"; ","; "e.g."; "()"; "AI"; "+1"]) (Ok tt) (Ok []))
      "AI, e.g. () AI +1" "english" start
    = (Ok (map lower kept), mkState tt [EvWordTokenize "AI, e.g. () AI +1"])
    /\ kept = ["AI"; "e.g."; "AI"; "+1"]
    /\ sublist kept ["AI"; ","; "e.g."; "()"; "AI"; "+1"]
    /\ List.filter (fun word => negb (all_chars is_punctuation_char word)) kept
       = ["AI"; "e.g."; "AI"; "+1"]
    /\ forall word,
         word ∈ ["AI"; ","; "e.g."; "()"; "AI"; "+1"] ->
         all_chars is_punctuation_char word = false -> word ∈ kept.
Proof.
  apply (tokenize_text_keeps_words
           (fixed_services (Ok []) (Ok true) (Ok [])
              (fun _ => Ok ["AI"; ","; "e.g."; "()"; "AI"; "+1"]) (Ok tt)
              (Ok []))
           "AI, e.g. () AI +1" "english" start
           ["AI"; ","; "e.g."; "()"; "AI"; "+1"] tt).
  - discriminate.
  - reflexivity.
Defined.

(** ** The URL of the language service *)

Lemma rstrip_slashes n : rstrip "/" (slashes n) = EmptyString.
Proof. induction n as [|n IH]; simpl; [done|]. now rewrite IH. Qed.

Lemma ends_with_cons c a s :
  s <> EmptyString -> ends_with c (String a s) = ends_with c s.
Proof. now destruct s. Qed.

Lemma rstrip_stem stem n :
  ends_with "/" stem = false ->
  rstrip "/" (String.append stem (slashes n)) = stem.
Proof.
  induction stem as [|a stem IH]; intros Hend.
  - apply rstrip_slashes.
  - change (String.append (String a stem) (slashes n))
      with (String a (String.append stem (slashes n))).
    cbn [rstrip]. destruct stem as [|b stem].
    + change (String.append EmptyString (slashes n)) with (slashes n).
      rewrite rstrip_slashes. simpl in Hend. now rewrite Hend.
    + rewrite ends_with_cons in Hend by done. rewrite (IH Hend). reflexivity.
Qed.

(** X10.  However many slashes end the configured endpoint, the URL that
    [detect_language] posts to is the endpoint without them, followed by the
    path of the language API. *)
Theorem language_endpoint_trailing_slashes {W} (be : Backends W)
    (stem : string) (n : nat) :
  AZURE_LANGUAGE_ENDPOINT be = String.append stem (slashes n) ->
  ends_with "/" stem = false ->
  language_endpoint be = String.append stem "/text/analytics/v3.1/languages".
Proof.
  intros Hcfg Hend. unfold language_endpoint. now rewrite Hcfg, rstrip_stem.
Qed.

Lemma language_endpoint_trailing_slashes_witness :
  language_endpoint
    (fixed_backends "https://lang.example///" (Raise HTTPError)
       (fun _ _ => Ok "answer"))
  = "https://lang.example/text/analytics/v3.1/languages".
Proof.
  apply (language_endpoint_trailing_slashes
           (fixed_backends "https://lang.example///" (Raise HTTPError)
              (fun _ _ => Ok "answer"))
           "https://lang.example" 3).
  - reflexivity.
  - reflexivity.
Defined.

(** ** [clean_ai_response] *)

Lemma close_at_strip s : close_at s = None -> close_at (strip_from 0 s) = None.
Proof.
  induction s as [|c s IH]; [done|]. cbn [close_at strip_from].
  destruct (Ascii.eqb_spec c ">") as [->|Hgt]; [done|].
  destruct (Ascii.eqb_spec c "010") as [->|Hnl].
  - intros _. reflexivity.
  - intros Hclose. destruct (close_at s) as [n|] eqn:Hs; [done|].
    specialize (IH eq_refl).
    destruct (Ascii.eqb c "<"); cbn [close_at];
      rewrite (proj2 (Ascii.eqb_neq _ _) Hgt), (proj2 (Ascii.eqb_neq _ _) Hnl), IH;
      reflexivity.
Qed.

Lemma has_tag_strip skip s : has_tag (strip_from skip s) = false.
Proof.
  revert skip. induction s as [|c s IH]; intros skip; [done|].
  cbn [strip_from]. destruct skip as [|k]; [|apply IH].
  destruct (Ascii.eqb c "<") eqn:Hlt.
  - destruct (close_at s) as [n|] eqn:Hs; [apply IH|].
    cbn [has_tag]. rewrite Hlt, IH, (close_at_strip s Hs). reflexivity.
  - cbn [has_tag]. rewrite Hlt, IH. reflexivity.
Qed.

Lemma strip_no_tag s : has_tag s = false -> strip_from 0 s = s.
Proof.
  induction s as [|c s IH]; [done|]. cbn [has_tag strip_from].
  intros [Hhead Htail]%orb_false_iff. rewrite (IH Htail).
  destruct (Ascii.eqb c "<"); [|done].
  destruct (close_at s); [discriminate Hhead | done].
Qed.

Lemma has_char_cons_false c a s :
  has_char c (String a s) = false -> a <> c /\ has_char c s = false.
Proof.
  cbn [has_char]. intros [Ha Hs]%orb_false_iff. split; [|done].
  now apply Ascii.eqb_neq.
Qed.

(** Where [close_at] finds the [>]. *)
Lemma close_at_Some s n :
  close_at s = Some n ->
  exists inner after,
    s = String.append inner (String ">"%char after)
    /\ String.length inner = n
    /\ has_char ">" inner = false /\ has_char "010" inner = false.
Proof.
  revert n. induction s as [|c s IH]; intros n; [done|]. cbn [close_at].
  destruct (Ascii.eqb_spec c ">") as [->|Hgt].
  - intros [= <-]. now exists EmptyString, s.
  - destruct (Ascii.eqb_spec c "010") as [->|Hnl]; [done|].
    destruct (close_at s) as [m|]; [|done]. intros [= <-].
    destruct (IH m eq_refl) as (inner & after & -> & <- & Hg & Hn).
    exists (String c inner), after. cbn [has_char String.length String.append].
    rewrite Hg, Hn, (proj2 (Ascii.eqb_neq _ _) Hgt),
      (proj2 (Ascii.eqb_neq _ _) Hnl). done.
Qed.

Lemma close_at_app inner after :
  has_char ">" inner = false -> has_char "010" inner = false ->
  close_at (String.append inner (String ">"%char after))
  = Some (String.length inner).
Proof.
  induction inner as [|c inner IH]; [done|].
  intros [Hgt Hg]%has_char_cons_false [Hnl Hn]%has_char_cons_false.
  change (String.append (String c inner) (String ">"%char after))
    with (String c (String.append inner (String ">"%char after))).
  cbn [close_at String.length].
  rewrite (proj2 (Ascii.eqb_neq _ _) Hgt), (proj2 (Ascii.eqb_neq _ _) Hnl).
  now rewrite IH.
Qed.

Lemma close_at_None_app inner after :
  close_at (String.append inner (String ">"%char after)) = None ->
  has_char "010" inner = true.
Proof.
  induction inner as [|c inner IH]; [done|].
  change (String.append (String c inner) (String ">"%char after))
    with (String c (String.append inner (String ">"%char after))).
  cbn [close_at has_char].
  destruct (Ascii.eqb_spec c ">") as [->|Hgt]; [done|].
  destruct (Ascii.eqb_spec c "010") as [->|Hnl]; [done|].
  destruct (close_at (String.append inner (String ">"%char after))); [done|].
  intros _. now apply IH.
Qed.

Lemma close_at_unclosed s : close_at s = None <-> unclosed s.
Proof.
  split.
  - intros Hnone inner after ->. now apply close_at_None_app in Hnone.
  - intros Hun. destruct (close_at s) as [n|] eqn:Hc; [|done].
    apply close_at_Some in Hc as (inner & after & -> & _ & _ & Hn).
    rewrite (Hun inner after eq_refl) in Hn. discriminate Hn.
Qed.

(** Passing over the characters of a tag. *)
Lemma strip_from_skip inner n s :
  strip_from (String.length inner + n) (String.append inner s) = strip_from n s.
Proof. induction inner as [|c inner IH]; [done|]. apply IH. Qed.

Lemma strip_from_tag inner rest :
  has_char ">" inner = false -> has_char "010" inner = false ->
  strip_from 0 (String "<"%char (String.append inner (String ">"%char rest)))
  = strip_from 0 rest.
Proof.
  intros Hg Hn. cbn [strip_from]. cbn [Ascii.eqb Bool.eqb].
  rewrite close_at_app by done.
  replace (S (String.length inner)) with (String.length inner + 1)%nat by lia.
  rewrite strip_from_skip. reflexivity.
Qed.

Lemma strip_from_char c rest :
  c <> "<"%char \/ unclosed rest ->
  strip_from 0 (String c rest) = String c (strip_from 0 rest).
Proof.
  intros Hc. cbn [strip_from]. destruct (Ascii.eqb_spec c "<") as [->|_]; [|done].
  destruct Hc as [Hc | Hun]; [done|].
  now rewrite (proj2 (close_at_unclosed rest) Hun).
Qed.

Lemma string_length_append a b :
  String.length (String.append a b) = (String.length a + String.length b)%nat.
Proof. induction a as [|c a IH]; simpl; [done|]. now rewrite IH. Qed.

(** [re.sub] returns the text without its tags, and nothing else is. *)
Lemma tags_removed_strip s : tags_removed s (strip_from 0 s).
Proof.
  remember (String.length s) as n eqn:Hn.
  revert s Hn. induction (lt_wf n) as [n _ IH]. intros s ->.
  destruct s as [|c rest]; [constructor|].
  destruct (Ascii.eqb_spec c "<") as [->|Hc].
  - destruct (close_at rest) as [k|] eqn:Hk.
    + apply close_at_Some in Hk as (inner & after & -> & _ & Hg & Hnl).
      rewrite strip_from_tag by done. constructor; [done..|].
      eapply IH; [|reflexivity]. cbn [String.length].
      rewrite string_length_append. cbn [String.length]. lia.
    + rewrite strip_from_char by (right; now apply close_at_unclosed).
      constructor; [right; now apply close_at_unclosed|].
      eapply IH; [|reflexivity]. cbn [String.length]. lia.
  - rewrite strip_from_char by now left.
    constructor; [now left|]. eapply IH; [|reflexivity].
    cbn [String.length]. lia.
Qed.

Lemma tags_removed_unique s out : tags_removed s out -> out = strip_from 0 s.
Proof.
  induction 1 as [|inner rest out Hg Hn _ IH|c rest out Hc _ IH].
  - reflexivity.
  - now rewrite strip_from_tag.
  - now rewrite strip_from_char, IH.
Qed.

(** X11.  For every language but arabic, [clean_ai_response] returns the text
    without its tags and nothing else: read from left to right, each [<]
    with the characters up to the first [>] on its line is left out, every
    other character stays in place.  No such tag is left in the result, and
    a text without tag comes back unchanged. *)
Theorem clean_ai_response_strips_tags (text language : string) :
  language <> "arabic" ->
  (forall out, tags_removed text out <-> out = clean_ai_response text language)
  /\ has_tag (clean_ai_response text language) = false
  /\ (has_tag text = false -> clean_ai_response text language = text).
Proof.
  intros Hlang. unfold clean_ai_response, re_sub_tags.
  destruct (String.eqb_spec language "arabic") as [->|_]; [done|].
  split_and!; [|apply has_tag_strip | apply strip_no_tag].
  intros out. split; [apply tags_removed_unique|].
  intros ->. apply tags_removed_strip.
Qed.

Lemma clean_ai_response_strips_tags_witness :
  tags_removed "<b>AI</b> helps <i>doctors"
    (clean_ai_response "<b>AI</b> helps <i>doctors" "english")
  /\ clean_ai_response "<b>AI</b> helps <i>doctors" "english"
     = "AI helps doctors"
  /\ clean_ai_response "a < b" "english" = "a < b".
Proof.
  destruct (clean_ai_response_strips_tags "<b>AI</b> helps <i>doctors" "english")
    as [Hspec _]; [discriminate|].
  destruct (clean_ai_response_strips_tags "a < b" "english")
    as (_ & _ & Hsame); [discriminate|].
  split_and!; [now apply Hspec | reflexivity | apply Hsame; reflexivity].
Defined.

Lemma has_char_append c a b :
  has_char c (String.append a b) = has_char c a || has_char c b.
Proof.
  induction a as [|x a IH]; simpl; [done|]. now rewrite IH, orb_assoc.
Qed.

(** Replacing a character by a string without it removes the character. *)
Lemma replace_char_gone c new skip s :
  has_char c new = false ->
  has_char c (replace_from skip (String c EmptyString) new s) = false.
Proof.
  intros Hnew. revert skip. induction s as [|a s IH]; intros skip; [done|].
  cbn [replace_from]. destruct skip as [|k]; [|apply IH].
  cbn [String.prefix]. destruct (ascii_dec c a) as [<-|Hne].
  - replace (String.prefix EmptyString s) with true by now destruct s.
    rewrite has_char_append, Hnew. apply IH.
  - cbn [has_char]. rewrite IH, orb_false_r.
    apply Ascii.eqb_neq. congruence.
Qed.

(** A replacement does not bring in a character that neither the text nor
    the new string has. *)
Lemma replace_char_absent c old new skip s :
  has_char c new = false -> has_char c s = false ->
  has_char c (replace_from skip old new s) = false.
Proof.
  intros Hnew. revert skip. induction s as [|a s IH]; intros skip; [done|].
  cbn [has_char]. intros [Ha Hs]%orb_false_iff.
  cbn [replace_from]. destruct skip as [|k]; [|now apply IH].
  destruct (String.prefix old (String a s)).
  - rewrite has_char_append, Hnew. now apply IH.
  - cbn [has_char]. rewrite Ha. now apply IH.
Qed.

(** [str.replace], position by position. *)
Lemma prefix_append old rest : String.prefix old (String.append old rest) = true.
Proof.
  induction old as [|c old IH]; [now destruct rest|].
  change (String.append (String c old) rest)
    with (String c (String.append old rest)).
  cbn [String.prefix]. now destruct (ascii_dec c c).
Qed.

Lemma prefix_split old s :
  String.prefix old s = true -> exists rest, s = String.append old rest.
Proof.
  revert s. induction old as [|c old IH]; intros s; [now exists s|].
  destruct s as [|a s]; [done|]. cbn [String.prefix].
  destruct (ascii_dec c a) as [<-|]; [|done].
  intros [rest ->]%IH. now exists rest.
Qed.

Lemma replace_from_skip p n old new s :
  replace_from (String.length p + n) old new (String.append p s)
  = replace_from n old new s.
Proof. induction p as [|c p IH]; [done|]. exact IH. Qed.

Lemma str_replace_here old new rest :
  old <> EmptyString ->
  str_replace old new (String.append old rest)
  = String.append new (str_replace old new rest).
Proof.
  intros Hold. destruct old as [|c old]; [done|]. unfold str_replace.
  pose proof (prefix_append (String c old) rest) as Hp.
  change (String.append (String c old) rest)
    with (String c (String.append old rest)) in *.
  cbn [replace_from]. rewrite Hp. cbn [String.length].
  replace (S (String.length old) - 1)%nat with (String.length old + 0)%nat
    by lia.
  now rewrite replace_from_skip.
Qed.

Lemma str_replace_next old new c rest :
  String.prefix old (String c rest) = false ->
  str_replace old new (String c rest) = String c (str_replace old new rest).
Proof. intros Hp. unfold str_replace. cbn [replace_from]. now rewrite Hp. Qed.

(** [str.replace] replaces the occurrences met from left to right, and
    nothing else does. *)
Lemma replaced_str_replace old new s :
  old <> EmptyString -> replaced old new s (str_replace old new s).
Proof.
  intros Hold. remember (String.length s) as n eqn:Hn.
  revert s Hn. induction (lt_wf n) as [n _ IH]. intros s ->.
  destruct s as [|c s]; [constructor|].
  destruct (String.prefix old (String c s)) eqn:Hp.
  - apply prefix_split in Hp as [rest Heq]. rewrite Heq.
    rewrite str_replace_here by done. constructor.
    eapply IH; [|reflexivity]. rewrite Heq, string_length_append.
    destruct old; [done|]. cbn [String.length]. lia.
  - rewrite str_replace_next by done. constructor; [done|].
    eapply IH; [|reflexivity]. cbn [String.length]. lia.
Qed.

Lemma replaced_unique old new s out :
  old <> EmptyString -> replaced old new s out -> out = str_replace old new s.
Proof.
  intros Hold. induction 1 as [|rest out _ IH|c rest out Hp _ IH].
  - reflexivity.
  - now rewrite str_replace_here, IH.
  - now rewrite str_replace_next, IH.
Qed.

(** X12.  For arabic, [clean_ai_response] returns exactly this: the text
    without its tags, in which, one replacement after the other and each
    from left to right, the bullet, the hyphen, two spaces and a star, and
    the star have become squares, [1.] to [5.] have taken their Arabic
    digit and each line break has become [<br>], the whole inside one
    right-to-left [div].  The content of that [div] has no line break, no
    [*] and no [-]. *)
Theorem clean_ai_response_arabic (text : string) :
  (forall result,
     arabic_cleaned text result <-> result = clean_ai_response text "arabic")
  /\ exists body,
       clean_ai_response text "arabic"
       = String.append rtl_div_open (String.append body "</div>")
       /\ has_char "010" body = false
       /\ has_char "*" body = false
       /\ has_char "-" body = false.
Proof.
  split.
  { intros result. split.
    - intros (t0 & t1 & t2 & t3 & t4 & t5 & t6 & t7 & t8 & t9 & body
              & H0 & H1 & H2 & H3 & H4 & H5 & H6 & H7 & H8 & H9 & Hb & ->).
      apply tags_removed_unique in H0.
      apply replaced_unique in H1, H2, H3, H4, H5, H6, H7, H8, H9, Hb;
        try discriminate.
      now subst.
    - intros ->. unfold arabic_cleaned. do 11 eexists.
      split_and!;
        [apply tags_removed_strip
        |apply replaced_str_replace; discriminate..
        |reflexivity]. }
  unfold clean_ai_response. cbn [String.eqb Ascii.eqb Bool.eqb].
  eexists. split; [reflexivity|]. unfold str_replace, newline.
  set (t0 := re_sub_tags text).
  set (t2 := replace_from 0 "-" "◼" (replace_from 0 "•" "◼" t0)).
  assert (Hdash : has_char "-" t2 = false)
    by (apply replace_char_gone; reflexivity).
  set (t4 := replace_from 0 "*" "◼" (replace_from 0 "  *" "◼" t2)).
  assert (Hstar4 : has_char "*" t4 = false)
    by (apply replace_char_gone; reflexivity).
  assert (Hdash4 : has_char "-" t4 = false)
    by (do 2 (apply replace_char_absent; [reflexivity|]); exact Hdash).
  split_and!.
  - apply replace_char_gone. reflexivity.
  - do 6 (apply replace_char_absent; [reflexivity|]). exact Hstar4.
  - do 6 (apply replace_char_absent; [reflexivity|]). exact Hdash4.
Qed.

(** ** [detect_language] *)

Lemma run_lift {W A B} (r : result A) (k : A -> M W B) (s : State W) :
  (lift r ≫= k) s
  = match r with
    | Ok a => k a s
    | Raise e => (Raise e, s)
    end.
Proof. rewrite run_bind. unfold lift. now destruct r. Qed.

Lemma json_is_str_eq s v : json_is_str s v = true -> v = JStr s.
Proof.
  destruct v; simpl; try done. now intros ->%String.eqb_eq.
Qed.

(** The branches in which the [if] returns nothing. *)
Local Ltac no_language := eexists; split; [reflexivity | intros ? [=]].

(** The [if] of the [try] block leaves the state alone, and a language it
    returns is read off the ISO code of the first document. *)
Lemma detected_language_cases {W} (response : json) (s : State W) :
  exists r,
    detected_language response s = (r, s)
    /\ forall language,
         r = Ok (Some language) ->
         exists documents document detected detected_lang,
           py_getitem "documents" response = Ok documents
           /\ py_getitem_0 documents = Ok document
           /\ py_getitem "detectedLanguage" document = Ok detected
           /\ py_getitem "iso6391Name" detected = Ok detected_lang
           /\ language = (if json_is_str "ar" detected_lang
                          then "arabic" else "english").
Proof.
  unfold detected_language. rewrite run_lift.
  destruct (py_contains "documents" response) as [[|]|e]; [|no_language..].
  rewrite run_lift.
  destruct (py_getitem "documents" response) as [documents|e] eqn:Hdocs;
    [|no_language].
  destruct (py_truthy documents); [|no_language].
  rewrite run_lift.
  destruct (py_getitem_0 documents) as [document|e] eqn:Hfirst; [|no_language].
  rewrite run_lift.
  destruct (py_getitem "detectedLanguage" document) as [detected|e] eqn:Hdet;
    [|no_language].
  rewrite run_lift.
  destruct (py_getitem "iso6391Name" detected) as [detected_lang|e] eqn:Hiso;
    [|no_language].
  eexists. split; [reflexivity|]. intros language [= <-].
  now exists documents, document, detected, detected_lang.
Qed.

(** The run of [detect_language], by the answer of the service. *)
Lemma detect_language_run {W} (be : Backends W) (text : string) (s : State W)
    (r : result Response) (w' : W) :
  requests_post be (language_endpoint be) (AZURE_LANGUAGE_KEY be) text (world s)
  = (r, w') ->
  detect_language be text s
  = (Ok match r with
        | Raise _ => "english"
        | Ok response =>
            if ((400 <=? status_code response)
                && (status_code response <? 600))%Z
            then "english"
            else match response_body response with
                 | None => "english"
                 | Some v =>
                     match fst (detected_language v (mkState w' (trace s))) with
                     | Ok (Some language) => language
                     | _ => "english"
                     end
                 end
        end,
     mkState w' (trace s)).
Proof.
  intros Hpost. unfold detect_language. rewrite run_bind. unfold try_except.
  rewrite run_bind. unfold invoke at 1. rewrite Hpost.
  destruct r as [response|e]; [|reflexivity].
  rewrite run_bind. unfold raise_for_status.
  destruct ((400 <=? status_code response) && (status_code response <? 600))%Z;
    [reflexivity|].
  cbn [ret]. rewrite run_bind. unfold response_json.
  destruct (response_body response) as [v|]; [|reflexivity].
  cbn [ret].
  destruct (detected_language_cases v (mkState w' (trace s))) as (r & -> & _).
  cbn [fst]. now destruct r as [[language|]|e].
Qed.

(** X13.  [detect_language] never raises: it posts once to the language
    service and, whatever comes back, returns ["english"] or ["arabic"]. *)
Theorem detect_language_never_raises {W} (be : Backends W) (text : string)
    (s : State W) :
  exists language,
    detect_language be text s
    = (Ok language,
       mkState (snd (requests_post be (language_endpoint be)
                       (AZURE_LANGUAGE_KEY be) text (world s)))
               (trace s))
    /\ (language = "english" \/ language = "arabic").
Proof.
  destruct (requests_post be (language_endpoint be) (AZURE_LANGUAGE_KEY be)
              text (world s)) as [r w'] eqn:Hpost.
  rewrite (detect_language_run be text s r w' Hpost). eexists.
  split; [reflexivity|].
  destruct r as [response|e]; [|now left].
  destruct ((400 <=? status_code response) && (status_code response <? 600))%Z;
    [now left|].
  destruct (response_body response) as [v|]; [|now left].
  destruct (detected_language_cases v (mkState w' (trace s)))
    as (r & -> & Hr).
  cbn [fst]. destruct r as [[language|]|e]; [|now left..].
  destruct (Hr language eq_refl) as (_ & _ & _ & lang & _ & _ & _ & _ & ->).
  destruct (json_is_str "ar" lang); [now right | now left].
Qed.

(** X14.  If the request raises, the status is an error status (400 to 599)
    or the body is not JSON, [detect_language] returns ["english"]. *)
Theorem detect_language_falls_back {W} (be : Backends W) (text : string)
    (s : State W) (r : result Response) (w' : W) :
  requests_post be (language_endpoint be) (AZURE_LANGUAGE_KEY be) text (world s)
  = (r, w') ->
  match r with
  | Raise _ => True
  | Ok response =>
      (400 <= status_code response < 600)%Z \/ response_body response = None
  end ->
  detect_language be text s = (Ok "english", mkState w' (trace s)).
Proof.
  intros Hpost Hbad. rewrite (detect_language_run be text s r w' Hpost).
  destruct r as [response|e]; [|reflexivity].
  destruct ((400 <=? status_code response) && (status_code response <? 600))%Z
    eqn:Hstatus; [reflexivity|].
  destruct Hbad as [Hrange | ->]; [|reflexivity].
  apply andb_false_iff in Hstatus as [?%Z.leb_gt | ?%Z.ltb_ge]; lia.
Qed.

Lemma detect_language_falls_back_witness :
  detect_language
    (fixed_backends "https://lang.example/"
       (Ok {| status_code := 401; response_body := Some (JDict []) |})
       (fun _ _ => Ok "answer"))
    "مرحبا" start
  = (Ok "english", start).
Proof.
  apply (detect_language_falls_back
           (fixed_backends "https://lang.example/"
              (Ok {| status_code := 401; response_body := Some (JDict []) |})
              (fun _ _ => Ok "answer"))
           "مرحبا" start
           (Ok {| status_code := 401; response_body := Some (JDict []) |}) tt).
  - reflexivity.
  - left. simpl. lia.
Defined.

(** X15.  [detect_language] returns ["arabic"] only when the service answered
    without error status, with a JSON dict whose first document has the ISO
    code ["ar"]. *)
Theorem detect_language_arabic_only_if {W} (be : Backends W) (text : string)
    (s s' : State W) :
  detect_language be text s = (Ok "arabic", s') ->
  exists response w' json documents document detected,
    requests_post be (language_endpoint be) (AZURE_LANGUAGE_KEY be) text
      (world s) = (Ok response, w')
    /\ ~ (400 <= status_code response < 600)%Z
    /\ response_body response = Some json
    /\ py_getitem "documents" json = Ok documents
    /\ py_getitem_0 documents = Ok document
    /\ py_getitem "detectedLanguage" document = Ok detected
    /\ py_getitem "iso6391Name" detected = Ok (JStr "ar").
Proof.
  destruct (requests_post be (language_endpoint be) (AZURE_LANGUAGE_KEY be)
              text (world s)) as [r w'] eqn:Hpost.
  rewrite (detect_language_run be text s r w' Hpost).
  destruct r as [response|e]; [|discriminate].
  destruct ((400 <=? status_code response) && (status_code response <? 600))%Z
    eqn:Hstatus; [discriminate|].
  destruct (response_body response) as [v|] eqn:Hbody; [|discriminate].
  destruct (detected_language_cases v (mkState w' (trace s)))
    as (r & -> & Hr).
  cbn [fst]. destruct r as [[language|]|e]; [|discriminate..].
  intros [= -> _].
  destruct (Hr "arabic" eq_refl)
    as (documents & document & detected & lang & Hd & H0 & Hdet & Hiso & Hl).
  exists response, w', v, documents, document, detected.
  split_and!; try done.
  - apply andb_false_iff in Hstatus as [?%Z.leb_gt | ?%Z.ltb_ge]; lia.
  - rewrite Hiso. f_equal. apply json_is_str_eq.
    now destruct (json_is_str "ar" lang).
Qed.

Lemma detect_language_arabic_only_if_witness :
  exists response w' json documents document detected,
    requests_post
      (fixed_backends "https://lang.example/" (Ok (language_response "ar"))
         (fun _ _ => Ok "answer"))
      (language_endpoint
         (fixed_backends "https://lang.example/" (Ok (language_response "ar"))
            (fun _ _ => Ok "answer")))
      "key" "مرحبا" tt = (Ok response, w')
    /\ ~ (400 <= status_code response < 600)%Z
    /\ response_body response = Some json
    /\ py_getitem "documents" json = Ok documents
    /\ py_getitem_0 documents = Ok document
    /\ py_getitem "detectedLanguage" document = Ok detected
    /\ py_getitem "iso6391Name" detected = Ok (JStr "ar").
Proof.
  apply (detect_language_arabic_only_if
           (fixed_backends "https://lang.example/" (Ok (language_response "ar"))
              (fun _ _ => Ok "answer"))
           "مرحبا" start start).
  vm_compute. reflexivity.
Defined.

(** ** [generate_response] *)

(** X16.  [generate_response] detects the language, which cannot fail, and
    then makes one call to the chat model, whose answer or exception is its
    own: model [phi4-mini:3.8b] with the Arabic prompt when the language is
    arabic, model [gemma3:1b] with the English prompt otherwise, the query
    standing in the prompt as it is. *)
Theorem generate_response_one_chat {W} (be : Backends W) (query : string)
    (max_length : Z) (temperature : Q) (top_k : Z) (repetition_penalty : Q)
    (s : State W) :
  exists language s1 model_name prompt,
    detect_language be query s = (Ok language, s1)
    /\ (language = "english" /\ model_name = "gemma3:1b"
        /\ prompt = String.append english_prompt_head query
        \/ language = "arabic" /\ model_name = "phi4-mini:3.8b"
           /\ prompt = String.append arabic_prompt_head
                         (String.append query arabic_prompt_tail))
    /\ generate_response be query max_length temperature top_k
         repetition_penalty s
       = invoke (ollama_chat be model_name prompt
                   {| opt_temperature := temperature;
                      opt_top_k := top_k;
                      opt_max_length := max_length;
                      opt_repetition_penalty := repetition_penalty |}) s1.
Proof.
  destruct (detect_language_never_raises be query s) as (language & Hrun & Hl).
  unfold generate_response. rewrite run_bind, Hrun.
  exists language. eexists.
  destruct Hl as [-> | ->]; do 2 eexists;
    (split; [reflexivity|]); (split; [|reflexivity]); [left | right]; done.
Qed.

(** X17.  A failure of the language service does not stop the answer: the
    chat model for English is asked, with the English prompt. *)
Theorem generate_response_detection_down {W} (be : Backends W) (query : string)
    (max_length : Z) (temperature : Q) (top_k : Z) (repetition_penalty : Q)
    (s : State W) (e : exn) (w' : W) :
  requests_post be (language_endpoint be) (AZURE_LANGUAGE_KEY be) query (world s)
  = (Raise e, w') ->
  generate_response be query max_length temperature top_k repetition_penalty s
  = invoke (ollama_chat be "gemma3:1b" (String.append english_prompt_head query)
              {| opt_temperature := temperature;
                 opt_top_k := top_k;
                 opt_max_length := max_length;
                 opt_repetition_penalty := repetition_penalty |})
      (mkState w' (trace s)).
Proof.
  intros Hpost. unfold generate_response.
  rewrite run_bind, (detect_language_run be query s _ _ Hpost). reflexivity.
Qed.

Lemma generate_response_detection_down_witness :
  generate_response
    (fixed_backends "https://lang.example/"
       (Raise (ServiceError "connection refused"))
       (fun model _ => Ok model))
    "What is AI?" 512 0.9 40 1.0 start
  = (Ok "gemma3:1b", start).
Proof.
  rewrite (generate_response_detection_down
             (fixed_backends "https://lang.example/"
                (Raise (ServiceError "connection refused"))
                (fun model _ => Ok model))
             "What is AI?" 512 0.9 40 1.0 start
             (ServiceError "connection refused") tt).
  - reflexivity.
  - reflexivity.
Defined.

(** ** The search handler of [app.py] *)

(** X18.  For a query that is not empty and each of the three values of the
    select box, the handler calls [search_documents] with ["english"] or
    ["arabic"], so that the size lookup of [generate_embedding] finds its
    key; with ["Arabic"] or ["English"] selected the language service is not
    asked. *)
Theorem search_clicked_supported_language {W} (sv : Services W)
    (be : Backends W) (language_option query_text : string) (s : State W) :
  language_option ∈ ["Auto-Detect"; "Arabic"; "English"] ->
  str_lower sv "Arabic" = "arabic" ->
  str_lower sv "English" = "english" ->
  query_text <> "" ->
  exists language s0,
    (language = "english" \/ language = "arabic")
    /\ is_Some (EMBEDDING_SIZES !! language)
    /\ (language_option <> "Auto-Detect" -> s0 = s)
    /\ search_clicked sv be language_option query_text s
       = (retrieved_docs ← search_documents sv query_text language;
          mret (Some (language, retrieved_docs))) s0.
Proof.
  intros Hopt Har Hen Hquery. unfold search_clicked.
  destruct (String.eqb_spec query_text "") as [|_]; [done|].
  assert (Hsizes : forall language,
            language = "english" \/ language = "arabic" ->
            is_Some (EMBEDDING_SIZES !! language))
    by (intros ? [-> | ->]; vm_compute; eauto).
  apply elem_of_cons in Hopt as [-> | Hopt].
  - destruct (detect_language_never_raises be query_text s)
      as (language & Hrun & Hl).
    exists language,
      (mkState (snd (requests_post be (language_endpoint be)
                       (AZURE_LANGUAGE_KEY be) query_text (world s)))
               (trace s)).
    split_and!; [done|auto|done|].
    cbn [String.eqb Ascii.eqb Bool.eqb]. rewrite run_bind, Hrun. reflexivity.
  - apply elem_of_cons in Hopt as [-> | Hopt];
      [|apply list_elem_of_singleton in Hopt as ->].
    + exists "arabic", s. rewrite Har. split_and!; [auto|auto|done|reflexivity].
    + exists "english", s. rewrite Hen. split_and!; [auto|auto|done|reflexivity].
Qed.

Lemma search_clicked_supported_language_witness :
  exists language s0,
    (language = "english" \/ language = "arabic")
    /\ is_Some (EMBEDDING_SIZES !! language)
    /\ ("Arabic" <> "Auto-Detect" -> s0 = start)
    /\ search_clicked
         (fixed_services (Ok [1 # 2]) (Ok true) (Ok [plain_hit "A" 0.9])
            (fun t => Ok [t]) (Ok tt) (Ok [0.1%float]))
         (fixed_backends "https://lang.example/" (Ok (language_response "en"))
            (fun model _ => Ok model))
         "Arabic" "ما هو الذكاء الاصطناعي؟" start
       = (retrieved_docs ←
            search_documents
              (fixed_services (Ok [1 # 2]) (Ok true) (Ok [plain_hit "A" 0.9])
                 (fun t => Ok [t]) (Ok tt) (Ok [0.1%float]))
              "ما هو الذكاء الاصطناعي؟" language;
          mret (Some (language, retrieved_docs))) s0.
Proof.
  apply (search_clicked_supported_language
           (fixed_services (Ok [1 # 2]) (Ok true) (Ok [plain_hit "A" 0.9])
              (fun t => Ok [t]) (Ok tt) (Ok [0.1%float]))
           (fixed_backends "https://lang.example/" (Ok (language_response "en"))
              (fun model _ => Ok model))
           "Arabic" "ما هو الذكاء الاصطناعي؟" start).
  - apply list_elem_of_further, list_elem_of_here.
  - reflexivity.
  - reflexivity.
  - discriminate.
Defined.

(** ** The calls of the lexical stage *)

Lemma tokenize_corpus_calls {W} (sv : Services W) (language : string)
    (corpus : list string) (s s' : State W) (tokenized : list (list string)) :
  for_each (fun doc => tokenize_text sv doc language) corpus s
  = (Ok tokenized, s') ->
  trace s' = trace s ++ map EvWordTokenize corpus
  /\ length tokenized = length corpus.
Proof.
  revert s s' tokenized.
  induction corpus as [|doc corpus IH]; simpl; intros s s' tokenized.
  - intros [= <- <-]. now rewrite app_nil_r.
  - rewrite run_bind.
    destruct (tokenize_text sv doc language s) as [[toks|e] s0] eqn:Htok;
      [|discriminate].
    apply tokenize_text_trace in Htok. rewrite run_bind.
    destruct (for_each _ corpus s0) as [[ys|e] s2] eqn:Hrest; [|discriminate].
    apply IH in Hrest as [Htrace Hlen]. intros [= <- <-].
    split; [|simpl; now rewrite Hlen].
    rewrite Htrace, Htok, <- app_assoc. reflexivity.
Qed.

Lemma call_run {W A} ev (f : W -> result A * W) (s s' : State W) r :
  call ev f s = (r, s') ->
  f (world s) = (r, world s') /\ trace s' = trace s ++ [ev].
Proof.
  unfold call. destruct (f (world s)) as [r0 w']. now intros [= <- <-].
Qed.

(** X19.  When the lexical stage succeeds, it has run the tokenizer on the
    text of each candidate, in the order of the candidates; the BM25 model
    has been built on exactly the token lists these runs returned, one per
    candidate; the query has been tokenized after that; and the scores are
    the answer of that model to exactly the query's tokens.  These are its
    only calls. *)
Theorem lexical_scores_calls {W} (sv : Services W) (query language : string)
    (docs : list Candidate) (s s' : State W) (scores : list float) :
  lexical_scores sv query language docs s = (Ok scores, s') ->
  exists tokenized_corpus query_tokens s0 w1 s2,
    for_each (fun doc => tokenize_text sv doc language) (map doc_text docs) s
    = (Ok tokenized_corpus, s0)
    /\ BM25Okapi sv tokenized_corpus (world s0) = (Ok tt, w1)
    /\ tokenize_text sv query language
         (mkState w1 (trace s0 ++ [EvBM25Okapi tokenized_corpus]))
       = (Ok query_tokens, s2)
    /\ get_scores sv tokenized_corpus query_tokens (world s2)
       = (Ok scores, world s')
    /\ trace s'
       = trace s ++ map EvWordTokenize (map doc_text docs)
           ++ [EvBM25Okapi tokenized_corpus; EvWordTokenize query;
               EvGetScores query_tokens]
    /\ length tokenized_corpus = length docs.
Proof.
  unfold lexical_scores. rewrite run_bind.
  destruct (for_each _ _ s) as [[corpus|e] s0] eqn:Hcorpus; [|discriminate].
  pose proof (tokenize_corpus_calls _ _ _ _ _ _ Hcorpus) as [Htrace Hlen].
  rewrite run_bind.
  destruct (call _ _ s0) as [[[]|e] s1] eqn:Hmodel; [|discriminate].
  apply call_run in Hmodel as [Hmodel Ht1]. rewrite run_bind.
  destruct (tokenize_text sv query language s1) as [[toks|e] s2] eqn:Htok;
    [|discriminate].
  pose proof (tokenize_text_trace _ _ _ _ _ _ Htok) as Htt.
  intros [Hget Hgt]%call_run.
  exists corpus, toks, s0, (world s1), s2.
  split_and!; [done|done| |done| |now rewrite Hlen, length_map].
  - rewrite <- Ht1. now destruct s1.
  - rewrite Hgt, Htt, Ht1, Htrace, <- !app_assoc. reflexivity.
Qed.

Lemma lexical_scores_calls_witness :
  exists tokenized_corpus query_tokens s0 w1 s2,
    for_each
      (fun doc =>
         tokenize_text
           (fixed_services (Ok []) (Ok true) (Ok []) (fun t => Ok [t])
              (Ok tt) (Ok [0.1%float; 0.2%float]))
           doc "arabic")
      ["A"; "B"] start
    = (Ok tokenized_corpus, s0)
    /\ BM25Okapi
         (fixed_services (Ok []) (Ok true) (Ok []) (fun t => Ok [t])
            (Ok tt) (Ok [0.1%float; 0.2%float]))
         tokenized_corpus (world s0)
       = (Ok tt, w1)
    /\ tokenize_text
         (fixed_services (Ok []) (Ok true) (Ok []) (fun t => Ok [t])
            (Ok tt) (Ok [0.1%float; 0.2%float]))
         "query" "arabic"
         (mkState w1 (trace s0 ++ [EvBM25Okapi tokenized_corpus]))
       = (Ok query_tokens, s2)
    /\ get_scores
         (fixed_services (Ok []) (Ok true) (Ok []) (fun t => Ok [t])
            (Ok tt) (Ok [0.1%float; 0.2%float]))
         tokenized_corpus query_tokens (world s2)
       = (Ok [0.1%float; 0.2%float], tt)
    /\ [EvWordTokenize "A"; EvWordTokenize "B"; EvBM25Okapi [["A"]; ["B"]];
        EvWordTokenize "query"; EvGetScores ["query"]]
       = [EvWordTokenize "A"; EvWordTokenize "B";
          EvBM25Okapi tokenized_corpus; EvWordTokenize "query";
          EvGetScores query_tokens]
    /\ length tokenized_corpus = 2%nat.
Proof.
  apply (lexical_scores_calls
           (fixed_services (Ok []) (Ok true) (Ok []) (fun t => Ok [t])
              (Ok tt) (Ok [0.1%float; 0.2%float]))
           "query" "arabic"
           [candidate_of_hit "arabic" (plain_hit "A" 0.4);
            candidate_of_hit "arabic" (plain_hit "B" 0.9)]
           start
           (mkState tt
              [EvWordTokenize "A"; EvWordTokenize "B";
               EvBM25Okapi [["A"]; ["B"]]; EvWordTokenize "query";
               EvGetScores ["query"]])
           [0.1%float; 0.2%float]).
  reflexivity.
Defined.
